(** * Lead-generation front end: result-set controller and API client

    A shallow embedding of the main application script (state,
    filtering, pagination, statistics, CSV export) and of
    [frontend/js/api.js] (the three get-by-id lookups), with the
    properties of the specification stated over it.

    Conventions of the embedding.
    - A JavaScript Number is an IEEE 754 binary64 value, written as a
      [spec_float] of the Standard Library (precision 53, [emax] 1024),
      in the canonical form [valid_binary] describes, which is the form
      [parseFloat] and [of_Z] build.
    - A JavaScript string is a [string]: a sequence of code units.  The
      program only ever inspects single code units in the ASCII range
      (the double quote, digits, signs), so the width of a unit is
      immaterial.
    - A property that the server may leave out ([null] or [undefined]) is
      an [option]; both absent values are falsy and the program never
      tells them apart.
    - Array lengths and the page index are integers far below 2^53, on
      which binary64 arithmetic is exact; they are written in [Z]. *)

From Stdlib Require Import ZArith List String Ascii Bool Lia.
From Stdlib Require Import Numbers.DecimalString.
From Stdlib Require Import Floats.SpecFloat.
Import ListNotations.

Local Open Scope string_scope.
Local Open Scope Z_scope.

(* ================================================================== *)
(** * JavaScript numbers *)
(* ================================================================== *)

Module JsNumber.

Definition number : Type := spec_float.

Definition prec : Z := 53.
Definition emax : Z := 1024.

Definition NaN : number := S754_nan.
Definition Infinity : number := S754_infinity false.
Definition zero : number := S754_zero false.

(** The Number value of the integer [z] (round to nearest, ties to even). *)
Definition of_Z (z : Z) : number := binary_normalize prec emax z 0 false.

(** The Number value of the positive rational [n / d].  The quotient is
    taken with at least 55 significant bits, two more than a Number
    keeps, and the remainder tells [binary_round_aux] on which side of
    the half-way point the exact value lies. *)
Definition of_ratio (neg : bool) (n d : positive) : number :=
  let s := Z.max 0 (57 + Zpos (digits2_pos d) - Zpos (digits2_pos n)) in
  let scaled := Z.shiftl (Zpos n) s in
  let q := scaled / Zpos d in
  let r := scaled mod Zpos d in
  let l := if r =? 0 then loc_Exact else loc_Inexact (Z.compare (2 * r) (Zpos d)) in
  binary_round_aux prec emax neg q (- s) l.

(** The Number value of [m * 10^e] for an integer [m >= 0].  The first
    two tests only spare the computation of a huge power of ten: with
    [l = Z.log2 m], [10^(3*l/10) <= m < 10^(l/3 + 1)], so the value is
    beyond the largest finite Number in the first case and below half the
    smallest positive one in the second. *)
Definition of_decimal (neg : bool) (m e : Z) : number :=
  match m with
  | Zpos p =>
      let l := Z.log2 m in
      if 310 <? e + 3 * l / 10 then S754_infinity neg
      else if e + l / 3 + 1 <? -330 then S754_zero neg
      else if 0 <=? e then of_ratio neg (Z.to_pos (m * 10 ^ e)) 1
      else of_ratio neg p (Z.to_pos (10 ^ (- e)))
  | _ => S754_zero neg
  end.

(** ToBoolean on a Number: [+0], [-0] and [NaN] are falsy. *)
Definition truthy (x : number) : bool :=
  match x with
  | S754_zero _ | S754_nan => false
  | _ => true
  end.

(** [x >= y]: false as soon as one side is [NaN]. *)
Definition geb (x y : number) : bool := SFleb y x.

Definition ltb (x y : number) : bool := SFltb x y.

(** Structural equality of two numbers; unlike [===] it tells [+0] from
    [-0] and equates [NaN] with itself. *)
Definition same (x y : number) : bool :=
  match x, y with
  | S754_zero a, S754_zero b => Bool.eqb a b
  | S754_infinity a, S754_infinity b => Bool.eqb a b
  | S754_nan, S754_nan => true
  | S754_finite a m e, S754_finite b m' e' =>
      Bool.eqb a b && Pos.eqb m m' && Z.eqb e e'
  | _, _ => false
  end.

(** ** Number::toString

    For a finite non-zero [x] the digits are the shortest decimal
    [s * 10^(n-k)] ([k] digits) whose Number value is [x], the closest to
    [x] when there are several. *)

(** [x = num / den] exactly, for [x] the finite float [m * 2^e]. *)
Definition exact_ratio (m : positive) (e : Z) : Z * Z :=
  if 0 <=? e then (Zpos m * 2 ^ e, 1) else (Zpos m, 2 ^ (- e)).

Definition below_pow10 (num den n : Z) : bool :=
  if 0 <=? n then num <? den * 10 ^ n else num * 10 ^ (- n) <? den.

(** The least [n >= n0] with [num / den < 10^n]. *)
Fixpoint magnitude (fuel : nat) (num den n0 : Z) : Z :=
  match fuel with
  | O => n0
  | S fuel' =>
      if below_pow10 num den n0 then n0
      else magnitude fuel' num den (n0 + 1)
  end.

(** The two [k]-digit neighbours of [num / den] at magnitude [n], and the
    one to print if either has Number value [x]. *)
Definition try_digits (x : number) (num den n k : Z) : option (Z * Z) :=
  let vn := if 0 <=? k - n then num * 10 ^ (k - n) else num in
  let vd := if 0 <=? k - n then den else den * 10 ^ (n - k) in
  let lo := vn / vd in
  let r := vn mod vd in
  let hi := lo + 1 in
  let ok c := same (of_decimal false c (n - k)) x in
  let norm c := if c =? 10 ^ k then (10 ^ (k - 1), n + 1) else (c, n) in
  if r =? 0 then (if ok lo then Some (lo, n) else None)
  else
    match ok lo, ok hi with
    | true, true =>
        match Z.compare (2 * r) vd with
        | Lt => Some (lo, n)
        | Gt => Some (norm hi)
        | Eq => if Z.even lo then Some (lo, n) else Some (norm hi)
        end
    | true, false => Some (lo, n)
    | false, true => Some (norm hi)
    | false, false => None
    end.

Fixpoint shortest (fuel : nat) (x : number) (num den n k : Z) : Z * Z :=
  match fuel with
  | O => ((if 0 <=? k - n then num * 10 ^ (k - n) / den
           else num / (den * 10 ^ (n - k))), n)
  | S fuel' =>
      match try_digits x num den n k with
      | Some sn => sn
      | None => shortest fuel' x num den n (k + 1)
      end
  end.

Definition string_of_Z (z : Z) : string :=
  NilZero.string_of_uint (N.to_uint (Z.to_N z)).

Fixpoint zeros (n : nat) : string :=
  match n with
  | O => ""
  | S n' => String "0" (zeros n')
  end.

(** The layout of the digits [ds] ([k] of them) at magnitude [n]. *)
Definition layout (ds : string) (n : Z) : string :=
  let k := Z.of_nat (String.length ds) in
  if (k <=? n) && (n <=? 21) then
    (ds ++ zeros (Z.to_nat (n - k)))%string
  else if (0 <? n) && (n <=? 21) then
    (substring 0 (Z.to_nat n) ds ++ "." ++
     substring (Z.to_nat n) (Z.to_nat (k - n)) ds)%string
  else if (-6 <? n) && (n <=? 0) then
    ("0." ++ zeros (Z.to_nat (- n)) ++ ds)%string
  else
    let e := n - 1 in
    let sg := if e <? 0 then "-" else "+" in
    if k =? 1 then (ds ++ "e" ++ sg ++ string_of_Z (Z.abs e))%string
    else (substring 0 1 ds ++ "." ++ substring 1 (Z.to_nat (k - 1)) ds ++
          "e" ++ sg ++ string_of_Z (Z.abs e))%string.

(** [Z.log2 m + e] is the binary magnitude of [x]; three tenths of it,
    less one, is a decimal magnitude that is never too large, and the
    exact one is at most three steps above. *)
Definition toString (x : number) : string :=
  match x with
  | S754_nan => "NaN"
  | S754_zero _ => "0"
  | S754_infinity s => if s then "-Infinity" else "Infinity"
  | S754_finite s m e =>
      let '(num, den) := exact_ratio m e in
      let n0 := (Z.log2 (Zpos m) + e) * 30103 / 100000 - 1 in
      let n := magnitude 5 num den n0 in
      let '(d, n') := shortest 17 (S754_finite false m e) num den n 1 in
      ((if s then "-" else "") ++ layout (string_of_Z d) n')%string
  end.

(** ** parseFloat *)

Definition is_digit (c : ascii) : bool :=
  let n := N_of_ascii c in ((48 <=? n) && (n <=? 57))%N.

(** WhiteSpace and LineTerminator code units below 256. *)
Definition is_space (c : ascii) : bool :=
  let n := N_of_ascii c in
  (((9 <=? n) && (n <=? 13)) || (n =? 32) || (n =? 160))%N.

Fixpoint skip_spaces (s : string) : string :=
  match s with
  | String c s' => if is_space c then skip_spaces s' else s
  | EmptyString => s
  end.

(** The longest run of decimal digits at the head of [s]: its value, its
    length, and what follows. *)
Fixpoint digits (acc : Z) (len : Z) (s : string) : Z * Z * string :=
  match s with
  | String c s' =>
      if is_digit c
      then digits (10 * acc + (Z.of_N (N_of_ascii c) - 48)) (len + 1) s'
      else (acc, len, s)
  | EmptyString => (acc, len, s)
  end.

(** The ExponentPart at the head of [s], 0 when there is none. *)
Definition exponent_part (s : string) : Z :=
  match s with
  | String c s' =>
      if (Ascii.eqb c "e" || Ascii.eqb c "E")%bool then
        match s' with
        | String "-" s'' =>
            let '(v, len, _) := digits 0 0 s'' in
            if 0 <? len then - v else 0
        | String "+" s'' =>
            let '(v, len, _) := digits 0 0 s'' in
            if 0 <? len then v else 0
        | _ =>
            let '(v, len, _) := digits 0 0 s' in
            if 0 <? len then v else 0
        end
      else 0
  | EmptyString => 0
  end.

(** StrUnsignedDecimalLiteral: the longest prefix of [s] that is one. *)
Definition unsigned_literal (neg : bool) (s : string) : number :=
  if prefix "Infinity" s then S754_infinity neg
  else
    let '(i, ilen, rest) := digits 0 0 s in
    match rest with
    | String "." rest' =>
        let '(m, flen, rest'') := digits i 0 rest' in
        if (ilen =? 0) && (flen =? 0) then NaN
        else of_decimal neg m (exponent_part rest'' - flen)
    | _ =>
        if ilen =? 0 then NaN
        else of_decimal neg i (exponent_part rest)
    end.

Definition parseFloat (s : string) : number :=
  match skip_spaces s with
  | String "-" s' => unsigned_literal true s'
  | String "+" s' => unsigned_literal false s'
  | s' => unsigned_literal false s'
  end.

End JsNumber.

(* ================================================================== *)
(** * JavaScript values and array operations *)
(* ================================================================== *)

Module Js.
Import JsNumber.

(** Parsed JSON, as [response.json()] hands it over. *)
#[warnings="-register-all"]
Inductive json : Type :=
  | JNull
  | JBool (b : bool)
  | JNum (x : number)
  | JStr (s : string)
  | JArr (items : list json)
  | JObj (members : list (string * json)).

(** What a call yields: a value, or a thrown [Error] with its message. *)
Inductive outcome (A : Type) : Type :=
  | Returned (a : A)
  | Thrown (message : string).
Arguments Returned {A} a.
Arguments Thrown {A} message.

(** ToBoolean of a string: only the empty string is falsy. *)
Definition nonempty (s : string) : bool :=
  match s with
  | EmptyString => false
  | String _ _ => true
  end.

(** ToBoolean of an optional string property. *)
Definition str_truthy (v : option string) : bool :=
  match v with
  | Some s => nonempty s
  | None => false
  end.

(** ToBoolean of an optional numeric property. *)
Definition num_truthy (v : option number) : bool :=
  match v with
  | Some x => truthy x
  | None => false
  end.

(** [v || ''] on an optional string property: a falsy [v] is absent or
    already the empty string. *)
Definition str_or_empty (v : option string) : string :=
  match v with
  | Some s => s
  | None => ""
  end.

(** [Array.prototype.slice(start, end)], negative indices counting from
    the end of the array. *)
Definition slice {A : Type} (l : list A) (start stop : Z) : list A :=
  let len := Z.of_nat (List.length l) in
  let k := if start <? 0 then Z.max (len + start) 0 else Z.min start len in
  let final := if stop <? 0 then Z.max (len + stop) 0 else Z.min stop len in
  firstn (Z.to_nat (final - k)) (skipn (Z.to_nat k) l).

(** [Math.ceil(a / b)] for integers [a >= 0] and [b > 0] below 2^53: the
    binary64 quotient of such integers is never rounded across an
    integer, so its ceiling is the exact one. *)
Definition ceil_div (a b : Z) : Z := - ((- a) / b).

(** The double quote, code unit 34. *)
Definition dquote : ascii := "034"%char.

(** [s.replace(/Q/g, 'QQ')] with [Q] the double quote: every double quote
    is doubled, every other code unit kept. *)
Fixpoint escape_quotes (s : string) : string :=
  match s with
  | EmptyString => EmptyString
  | String c s' =>
      if Ascii.eqb c dquote
      then String dquote (String dquote (escape_quotes s'))
      else String c (escape_quotes s')
  end.

(** [s.split('T')[0]] *)
Fixpoint before_T (s : string) : string :=
  match s with
  | EmptyString => EmptyString
  | String c s' => if Ascii.eqb c "T" then EmptyString else String c (before_T s')
  end.

(** [s.trim()] is the empty string: [s] holds white space only. *)
Definition blank (s : string) : bool := negb (nonempty (skip_spaces s)).

(** ** Trimming and parseInt *)

(** [s] without the white space at its end. *)
Fixpoint trim_end (s : string) : string :=
  match s with
  | EmptyString => EmptyString
  | String c s' =>
      match trim_end s' with
      | EmptyString => if is_space c then EmptyString else String c EmptyString
      | t => String c t
      end
  end.

(** [s.trim()] *)
Definition trim (s : string) : string := trim_end (skip_spaces s).

(** The value of [c] as a digit: 0-9, then a-z and A-Z for 10-35. *)
Definition digit_value (c : ascii) : option Z :=
  let n := Z.of_N (N_of_ascii c) in
  if (48 <=? n) && (n <=? 57) then Some (n - 48)
  else if (97 <=? n) && (n <=? 122) then Some (n - 87)
  else if (65 <=? n) && (n <=? 90) then Some (n - 55)
  else None.

(** The longest run of digits below [radix] at the head of [s]: its value
    and its length. *)
Fixpoint radix_digits (radix acc len : Z) (s : string) : Z * Z :=
  match s with
  | String c s' =>
      match digit_value c with
      | Some d =>
          if d <? radix then radix_digits radix (radix * acc + d) (len + 1) s'
          else (acc, len)
      | None => (acc, len)
      end
  | EmptyString => (acc, len)
  end.

(** [parseInt(s)], no radix given: leading white space and a sign are
    skipped, a 0x or 0X prefix selects base 16, and the digits that follow
    are read as far as they go. *)
Definition parseInt (s : string) : number :=
  let s1 := skip_spaces s in
  let neg := match s1 with String "-" _ => true | _ => false end in
  let s2 :=
    match s1 with
    | String "-" r => r
    | String "+" r => r
    | _ => s1
    end in
  let hex :=
    match s2 with
    | String "0" (String x _) => Ascii.eqb x "x" || Ascii.eqb x "X"
    | _ => false
    end in
  let s3 :=
    match s2 with
    | String "0" (String x r) => if hex then r else s2
    | _ => s2
    end in
  let '(v, len) := radix_digits (if hex then 16 else 10) 0 0 s3 in
  if len =? 0 then NaN
  else if v =? 0 then S754_zero neg
  else of_Z (if neg then - v else v).

(** ** JSON values as JavaScript values *)

(** [members[key]] of a parsed object; of two members with one key
    [JSON.parse] keeps the later. *)
Fixpoint get_member (key : string) (members : list (string * json)) : option json :=
  match members with
  | [] => None
  | (k, v) :: rest =>
      match get_member key rest with
      | Some v' => Some v'
      | None => if String.eqb k key then Some v else None
      end
  end.

(** ToBoolean *)
Definition json_truthy (v : json) : bool :=
  match v with
  | JNull => false
  | JBool b => b
  | JNum x => truthy x
  | JStr s => nonempty s
  | JArr _ | JObj _ => true
  end.

(** ToString, [None] when the conversion throws a TypeError.  An array
    is its items joined by commas, a null item giving the empty text.  A
    plain object is a fixed text, unless it has a member of its own
    called toString: a parsed member is never a function, so no method
    of the object yields a primitive and the conversion throws. *)
Fixpoint json_to_string (v : json) : option string :=
  match v with
  | JNull => Some "null"
  | JBool b => Some (if b then "true" else "false")
  | JNum x => Some (toString x)
  | JStr s => Some s
  | JArr items =>
      option_map (String.concat ",")
        ((fix texts (l : list json) : option (list string) :=
            match l with
            | [] => Some []
            | item :: rest =>
                match (match item with
                       | JNull => Some EmptyString
                       | _ => json_to_string item
                       end), texts rest with
                | Some t, Some ts => Some (t :: ts)
                | _, _ => None
                end
            end) items)
  | JObj members =>
      match get_member "toString" members with
      | Some _ => None
      | None => Some "[object Object]"
      end
  end.

(** ** Text into markup, text into a query *)

Definition nbsp : ascii := "160"%char.

(** The serialisation of a text node inside an element: the ampersand,
    the no-break space and the two angle brackets become entities. *)
Fixpoint escape_text (s : string) : string :=
  match s with
  | EmptyString => EmptyString
  | String c s' =>
      if Ascii.eqb c "&" then ("&amp;" ++ escape_text s')%string
      else if Ascii.eqb c nbsp then ("&nbsp;" ++ escape_text s')%string
      else if Ascii.eqb c "<" then ("&lt;" ++ escape_text s')%string
      else if Ascii.eqb c ">" then ("&gt;" ++ escape_text s')%string
      else String c (escape_text s')
  end.

Definition hex_digit (n : N) : ascii :=
  ascii_of_N (if (n <? 10)%N then 48 + n else 55 + n).

(** One byte as a percent sign and two upper-case hexadecimal digits. *)
Definition percent_byte (n : N) (rest : string) : string :=
  String "%" (String (hex_digit (n / 16)) (String (hex_digit (n mod 16)) rest)).

(** A code unit in a form body or a query: letters, digits and the four
    marks asterisk, hyphen, full stop and underscore stand for themselves,
    the space is a plus sign, and every other unit is the percent-encoded
    bytes of its UTF-8 form (two bytes from 128 on). *)
Definition urlencode_unit (c : ascii) (rest : string) : string :=
  let n := N_of_ascii c in
  if ((48 <=? n) && (n <=? 57) || (65 <=? n) && (n <=? 90) ||
      (97 <=? n) && (n <=? 122) ||
      (n =? 42) || (n =? 45) || (n =? 46) || (n =? 95))%N
  then String c rest
  else if (n =? 32)%N then String "+" rest
  else if (n <? 128)%N then percent_byte n rest
  else percent_byte (192 + n / 64) (percent_byte (128 + n mod 64) rest).

Fixpoint urlencode (s : string) : string :=
  match s with
  | EmptyString => EmptyString
  | String c s' => urlencode_unit c (urlencode s')
  end.

End Js.

(* ================================================================== *)
(** * The API client ([api.js]) *)
(* ================================================================== *)

Module Api.
Import JsNumber Js.

Definition API_BASE : string := "/api".

Inductive method : Type := GET | POST.

Record Request : Type := mkRequest {
  req_method : method;
  req_url : string
}.

(** A [Response] as the client reads it: the status code and what
    [response.json()] yields (the parsed body, or the error thrown on a
    body that is not JSON). *)
Record Response : Type := mkResponse {
  status : Z;
  json_body : outcome json
}.

(** [response.ok]: the status is in the range 200-299. *)
Definition ok (r : Response) : bool :=
  (200 <=? status r) && (status r <=? 299).

Section Client.

(** The network: [fetch] resolves to a response or rejects. *)
Variable fetch : Request -> outcome Response.

(** A business id is spliced into the path by a template literal. *)
Definition research_url (businessId : number) : string :=
  (API_BASE ++ "/research/" ++ toString businessId)%string.

Definition seo_url (businessId : number) : string :=
  (API_BASE ++ "/seo/" ++ toString businessId)%string.

Definition seo_issues_url (businessId : number) : string :=
  (API_BASE ++ "/seo/issues/" ++ toString businessId)%string.

Definition getCompanyResearch (businessId : number) : outcome json :=
  match fetch (mkRequest GET (research_url businessId)) with
  | Thrown m => Thrown m
  | Returned response =>
      if negb (ok response) then
        if status response =? 404 then Returned JNull
        else Thrown "Failed to get research"
      else json_body response
  end.

Definition getSeoAnalysis (businessId : number) : outcome json :=
  match fetch (mkRequest GET (seo_url businessId)) with
  | Thrown m => Thrown m
  | Returned response =>
      if negb (ok response) then
        if status response =? 404 then Returned JNull
        else Thrown "Failed to get SEO analysis"
      else json_body response
  end.

Definition getSeoIssues (businessId : number) : outcome json :=
  match fetch (mkRequest GET (seo_issues_url businessId)) with
  | Thrown m => Thrown m
  | Returned response =>
      if negb (ok response) then
        if status response =? 404 then Returned JNull
        else Thrown "Failed to get SEO issues"
      else json_body response
  end.

End Client.

(** ** The other calls of the client *)

(** The optional members of the [filters] argument of [getBusinesses];
    [None] is a member left out. *)
Record Filters : Type := mkFilters {
  searchId : option json;
  hasWebsite : option json;
  minRating : option json;
  limit : option json;
  offset : option json
}.

(** [if (v) params.append(name, v)]: a member that is left out or falsy
    adds nothing; any other is appended as a string.  [None] when making
    the value a string throws. *)
Definition append_if_truthy (name : string) (v : option json)
    : option (list (string * string)) :=
  match v with
  | Some j =>
      if json_truthy j
      then option_map (fun text => [(name, text)]) (json_to_string j)
      else Some []
  | None => Some []
  end.

(** One more call of [append] after those that gave [before]. *)
Definition and_then (before next : option (list (string * string)))
    : option (list (string * string)) :=
  match before, next with
  | Some ps, Some qs => Some (ps ++ qs)%list
  | _, _ => None
  end.

(** The list a [URLSearchParams] holds after the five conditional calls
    of [append]; [hasWebsite] is tested against [undefined] and the empty
    string only.  [None] when one of the calls throws. *)
Definition businesses_params (filters : Filters) : option (list (string * string)) :=
  and_then (append_if_truthy "search_id" (searchId filters))
    (and_then
       (match hasWebsite filters with
        | None => Some []
        | Some (JStr EmptyString) => Some []
        | Some j => option_map (fun text => [("has_website", text)]) (json_to_string j)
        end)
       (and_then (append_if_truthy "min_rating" (minRating filters))
          (and_then (append_if_truthy "limit" (limit filters))
             (append_if_truthy "offset" (offset filters))))).

(** A [URLSearchParams] as text: name, equals sign, value, the pairs
    joined by ampersands, names and values percent-encoded. *)
Definition serialize_params (params : list (string * string)) : string :=
  String.concat "&"
    (map (fun p => (urlencode (fst p) ++ "=" ++ urlencode (snd p))%string) params).

(** The address [getBusinesses] fetches, when the parameters could be
    built. *)
Definition businesses_url (filters : Filters) : option string :=
  option_map (fun params => (API_BASE ++ "/businesses?" ++ serialize_params params)%string)
    (businesses_params filters).

Section Calls.

(** The network again: [fetch] for the requests without a body,
    [fetch_json] for the one that posts a JSON object, given here before
    [JSON.stringify] turns it into text. *)
Variable fetch : Request -> outcome Response.
Variable fetch_json : string -> json -> outcome Response.

(** The messages of two TypeErrors, whose wording is the engine's: the
    one that reading a member of [null] throws, and the one that making a
    string of an object without a usable conversion throws. *)
Variable reading_null : string.
Variable converting_object : string.










End Calls.

End Api.

(* ================================================================== *)
(** * The main application script *)
(* ================================================================== *)

Module App.
Import JsNumber Js.

(** One row of a search result, as the server sends it. *)
Record Business : Type := mkBusiness {
  id : number;
  name : option string;
  lead_score : option number;
  rating : option number;
  review_count : option number;
  website : option string;
  phone : option string;
  address : option string
}.

(** The payload of a successful search. *)
Record SearchResult : Type := mkSearchResult {
  search_id : json;
  businesses : list Business
}.

(** The pagination bar: what it shows, which buttons are disabled, and
    the [totalPages] its two click listeners have captured. *)
Record Pagination : Type := mkPagination {
  pg_page : Z;
  pg_totalPages : Z;
  pg_totalItems : Z;
  pg_prevDisabled : bool;
  pg_nextDisabled : bool
}.

(** The three module variables, and the part of the document the program
    reads or writes: the two filter controls, the table body, the
    pagination bar, the statistics, and which panels are displayed. *)
Record State : Type := mkState {
  currentSearchId : json;
  currentBusinesses : list Business;
  currentPage : Z;
  websiteFilter : string;
  ratingFilter : string;
  resultsBody : list Business;
  paginationControls : option Pagination;
  statistics : option (Z * Z * Z);
  emptyState : bool;
  statsBar : bool;
  filtersSection : bool;
  resultsSection : bool;
  errorState : option (string * string)
}.

Definition PAGE_SIZE : Z := 10.

Definition set_search (sid : json) (bs : list Business) (st : State) : State :=
  mkState sid bs 0
          (websiteFilter st) (ratingFilter st) (resultsBody st)
          (paginationControls st) (statistics st) (emptyState st)
          (statsBar st) (filtersSection st) (resultsSection st) (errorState st).

Definition set_currentPage (p : Z) (st : State) : State :=
  mkState (currentSearchId st) (currentBusinesses st) p
          (websiteFilter st) (ratingFilter st) (resultsBody st)
          (paginationControls st) (statistics st) (emptyState st)
          (statsBar st) (filtersSection st) (resultsSection st) (errorState st).

Definition set_filters (w r : string) (st : State) : State :=
  mkState (currentSearchId st) (currentBusinesses st) (currentPage st)
          w r (resultsBody st)
          (paginationControls st) (statistics st) (emptyState st)
          (statsBar st) (filtersSection st) (resultsSection st) (errorState st).

Definition set_resultsBody (rows : list Business) (st : State) : State :=
  mkState (currentSearchId st) (currentBusinesses st) (currentPage st)
          (websiteFilter st) (ratingFilter st) rows
          (paginationControls st) (statistics st) (emptyState st)
          (statsBar st) (filtersSection st) (resultsSection st) (errorState st).

Definition set_paginationControls (pc : option Pagination) (st : State) : State :=
  mkState (currentSearchId st) (currentBusinesses st) (currentPage st)
          (websiteFilter st) (ratingFilter st) (resultsBody st)
          pc (statistics st) (emptyState st)
          (statsBar st) (filtersSection st) (resultsSection st) (errorState st).

Definition set_statistics (s : Z * Z * Z) (st : State) : State :=
  mkState (currentSearchId st) (currentBusinesses st) (currentPage st)
          (websiteFilter st) (ratingFilter st) (resultsBody st)
          (paginationControls st) (Some s) (emptyState st)
          (statsBar st) (filtersSection st) (resultsSection st) (errorState st).

Definition set_panels (empty shown : bool) (st : State) : State :=
  mkState (currentSearchId st) (currentBusinesses st) (currentPage st)
          (websiteFilter st) (ratingFilter st) (resultsBody st)
          (paginationControls st) (statistics st) empty
          shown shown shown (errorState st).

Definition set_errorState (e : option (string * string)) (st : State) : State :=
  mkState (currentSearchId st) (currentBusinesses st) (currentPage st)
          (websiteFilter st) (ratingFilter st) (resultsBody st)
          (paginationControls st) (statistics st) (emptyState st)
          (statsBar st) (filtersSection st) (resultsSection st) e.

(** ** Filtering *)

(** [ratingFilter.value ? parseFloat(ratingFilter.value) : null] *)
Definition minRating (st : State) : option number :=
  if nonempty (ratingFilter st) then Some (parseFloat (ratingFilter st)) else None.

Definition getFilteredBusinesses (st : State) : list Business :=
  let websiteValue := websiteFilter st in
  let filtered := currentBusinesses st in
  let filtered :=
    if String.eqb websiteValue "true" then
      filter (fun b => str_truthy (website b)) filtered
    else if String.eqb websiteValue "false" then
      filter (fun b => negb (str_truthy (website b))) filtered
    else filtered in
  match minRating st with
  | Some m =>
      if truthy m then
        filter (fun b =>
                  match rating b with
                  | Some r => truthy r && geb r m
                  | None => false
                  end) filtered
      else filtered
  | None => filtered
  end.

(** ** Rendering *)

Definition renderTable (rows : list Business) (st : State) : State :=
  set_resultsBody rows st.

Definition renderPaginationControls (totalItems totalPages : Z) (st : State) : State :=
  if totalPages <=? 1 then set_paginationControls None st
  else
    set_paginationControls
      (Some (mkPagination (currentPage st + 1) totalPages totalItems
                          (currentPage st =? 0)
                          (totalPages - 1 <=? currentPage st)))
      st.

(** The two values [renderPage] computes from the list it is given. *)
Definition totalPages (bs : list Business) : Z :=
  ceil_div (Z.of_nat (List.length bs)) PAGE_SIZE.

Definition pageData (bs : list Business) (page : Z) : list Business :=
  let start := page * PAGE_SIZE in
  slice bs start (start + PAGE_SIZE).

Definition renderPage (bs : list Business) (st : State) : State :=
  renderPaginationControls (Z.of_nat (List.length bs)) (totalPages bs)
    (renderTable (pageData bs (currentPage st)) st).

Definition applyFilters (st : State) : State :=
  renderPage (getFilteredBusinesses st) st.

Definition handleFilterChange (st : State) : State :=
  applyFilters (set_currentPage 0 st).

Definition showResults (bs : list Business) (st : State) : State :=
  if Z.of_nat (List.length bs) =? 0 then set_panels true false st
  else renderPage bs (set_panels false true st).

Definition updateStats (bs : list Business) (st : State) : State :=
  let total := Z.of_nat (List.length bs) in
  let withWebsite :=
    Z.of_nat (List.length (filter (fun b => str_truthy (website b)) bs)) in
  let withoutWebsite := total - withWebsite in
  set_statistics (total, withWebsite, withoutWebsite) st.

Definition showError (title message : string) (st : State) : State :=
  set_errorState (Some (title, message)) (set_panels false false st).

Definition hideError (st : State) : State := set_errorState None st.

(** The click listeners of the two pagination buttons; the listener of
    the next button closes over the [totalPages] of the rendering that
    created it. *)
Definition prevBtn_click (st : State) : State :=
  if 0 <? currentPage st then applyFilters (set_currentPage (currentPage st - 1) st)
  else st.

Definition nextBtn_click (totalPages : Z) (st : State) : State :=
  if currentPage st <? totalPages - 1
  then applyFilters (set_currentPage (currentPage st + 1) st)
  else st.

(** [handleSearch] on the form values [query] and [location], with
    [reply] the outcome of [api.searchBusinesses].  The loading flag of
    the button and the usage meter are left out of the state. *)
Definition handleSearch (query location : string)
    (reply : outcome SearchResult) (st : State) : State :=
  if blank query || blank location then st
  else
    let st := hideError st in
    match reply with
    | Returned result =>
        let st := set_search (search_id result) (businesses result) st in
        let st := showResults (businesses result) st in
        updateStats (businesses result) st
    | Thrown message => showError "Search Failed" message st
    end.

(** ** CSV export *)

(** A cell of a row before [join] turns it into text. *)
Inductive cell : Type :=
  | CStr (s : string)
  | CNum (x : number).

Definition cell_text (c : cell) : string :=
  match c with
  | CStr s => s
  | CNum x => toString x
  end.

(** The template literal that wraps an optional text property: the
    property or, when it is falsy, the empty string, with its quotes
    doubled, between two quotes. *)
Definition quoted (v : option string) : string :=
  String dquote (escape_quotes (str_or_empty v) ++ String dquote EmptyString)%string.

Definition csv_headers : list string :=
  ["Name"; "Lead Score"; "Rating"; "Reviews"; "Website"; "Phone"; "Address"].

(** The seven cells of a row: [b.lead_score || 0], [b.rating || ''] and
    [b.review_count || ''] stay numbers when they are truthy. *)
Definition csv_row (b : Business) : list cell :=
  [ CStr (quoted (name b));
    (match lead_score b with
     | Some x => if truthy x then CNum x else CNum zero
     | None => CNum zero
     end);
    (match rating b with
     | Some x => if truthy x then CNum x else CStr ""
     | None => CStr ""
     end);
    (match review_count b with
     | Some x => if truthy x then CNum x else CStr ""
     | None => CStr ""
     end);
    CStr (quoted (website b));
    CStr (quoted (phone b));
    CStr (quoted (address b)) ].

Definition newline : string := String "010"%char EmptyString.

(** What the browser is handed to save. *)
Record Download : Type := mkDownload {
  filename : string;
  content : string
}.

(** [exportCSV], with [now] the text of [new Date().toISOString()];
    [None] when it returns before creating the download. *)
Definition exportCSV (now : string) (st : State) : option Download :=
  if Z.of_nat (List.length (currentBusinesses st)) =? 0 then None
  else
    let bs := getFilteredBusinesses st in
    let rows := map csv_row bs in
    let csv :=
      String.concat newline
        (String.concat "," csv_headers
         :: map (fun r => String.concat "," (map cell_text r)) rows) in
    Some (mkDownload ("leads_" ++ before_T now ++ ".csv")%string csv).

(** ** Events *)

(** What the user can do; a change of a filter control carries the new
    value of the control, a search the form values and the reply. *)
Inductive Event : Type :=
  | Search (query location : string) (reply : outcome SearchResult)
  | ChangeWebsiteFilter (value : string)
  | ChangeRatingFilter (value : string)
  | ClickPrev
  | ClickNext.

(** A click reaches the listener only when the bar is there and the
    button is not disabled. *)
Definition step (st : State) (e : Event) : State :=
  match e with
  | Search q l reply => handleSearch q l reply st
  | ChangeWebsiteFilter v => handleFilterChange (set_filters v (ratingFilter st) st)
  | ChangeRatingFilter v => handleFilterChange (set_filters (websiteFilter st) v st)
  | ClickPrev =>
      match paginationControls st with
      | Some pc => if pg_prevDisabled pc then st else prevBtn_click st
      | None => st
      end
  | ClickNext =>
      match paginationControls st with
      | Some pc =>
          if pg_nextDisabled pc then st else nextBtn_click (pg_totalPages pc) st
      | None => st
      end
  end.

Definition run (st : State) (es : list Event) : State := fold_left step es st.

(** ** Badges and escaping *)

(** [getLeadScoreClass], on the lead score of a row, which may be absent:
    an absent score compares as 0 or as NaN and is below both marks. *)
Definition getLeadScoreClass (score : option number) : string :=
  match score with
  | Some x =>
      if geb x (of_Z 65) then "score-hot"
      else if geb x (of_Z 35) then "score-warm"
      else "score-cold"
  | None => "score-cold"
  end.

Definition getScoreColorClass (score : number) : string :=
  if geb score (of_Z 80) then "score-good"
  else if geb score (of_Z 50) then "score-medium"
  else "score-bad".

Definition getGradeClass (grade : string) : string :=
  if prefix "A" grade then "grade-a"
  else if String.eqb grade "B" then "grade-b"
  else if String.eqb grade "C" then "grade-c"
  else "grade-d".

(** [escapeHtml]: a falsy text gives the empty string; any other is made
    the text of a fresh [div], whose markup is read back. *)
Definition escapeHtml (text : option string) : string :=
  if str_truthy text then escape_text (str_or_empty text) else "".

(** ** The arguments of a search *)

Record SearchArguments : Type := mkSearchArguments {
  arg_query : string;
  arg_location : string;
  arg_radius : number;
  arg_maxResults : number
}.

(** What [handleSearch] reads off the form before it calls the client:
    the two texts trimmed, the two numbers parsed with 10 in place of a
    falsy result; [None] when it returns without calling. *)
Definition search_arguments (businessType location radius maxResults : string)
    : option SearchArguments :=
  let query := trim businessType in
  let location := trim location in
  let radius := if truthy (parseInt radius) then parseInt radius else of_Z 10 in
  let maxResults :=
    if truthy (parseInt maxResults) then parseInt maxResults else of_Z 10 in
  if negb (nonempty query) || negb (nonempty location) then None
  else Some (mkSearchArguments query location radius maxResults).

End App.

(* ================================================================== *)
(** * Vocabulary of the properties *)
(* ================================================================== *)

Import JsNumber Js App.

(** [x === 0]: the numbers it holds of are the two zeros. *)
Definition is_zero (x : number) : bool := SFeqb x zero.

(** Whether the website filter, resp. the rating filter, of [st] keeps [b]. *)
Definition website_keeps (st : State) (b : Business) : bool :=
  if String.eqb (websiteFilter st) "true" then str_truthy (website b)
  else if String.eqb (websiteFilter st) "false" then negb (str_truthy (website b))
  else true.

Definition rating_keeps (st : State) (b : Business) : bool :=
  match minRating st with
  | Some m =>
      if truthy m then
        match rating b with
        | Some r => truthy r && geb r m
        | None => false
        end
      else true
  | None => true
  end.

(** The header line the specification names. *)
Definition header_line : string :=
  "Name,Lead Score,Rating,Reviews,Website,Phone,Address".

(** ** Sample data *)

(** A state holding the list [bs] on page [page], the website control
    at [w] and the rating control at [r], with the table not yet drawn. *)
Definition sample_state (bs : list Business) (page : Z) (w r : string) : State :=
  mkState (JNum (of_Z 7)) bs page w r [] None None false true true true None.

Definition unrated : Business :=
  mkBusiness (of_Z 1) (Some "Corner Cafe") (Some (of_Z 72)) None None
             (Some "https://corner.example") (Some "555-0101") (Some "1 Main St").

Definition zero_rated : Business :=
  mkBusiness (of_Z 2) (Some "New Diner") (Some (of_Z 40)) (Some zero) (Some zero)
             None None None.

Definition well_rated : Business :=
  mkBusiness (of_Z 3) (Some "Bean House") (Some (of_Z 85))
             (Some (parseFloat "4.5")) (Some (of_Z 120))
             (Some "https://bean.example") None (Some "9 Pine Ave").

(** ** The rows of the export, as text *)

(** A text between two double quotes. *)
Definition wrap (s : string) : string :=
  String dquote (s ++ String dquote EmptyString)%string.

(** A numeric property written bare, or [missing] when it is falsy. *)
Definition bare (v : option number) (missing : string) : string :=
  match v with
  | Some x => if truthy x then toString x else missing
  | None => missing
  end.

(** The line of a business: four quoted texts around three bare numbers. *)
Definition row_line (b : Business) : string :=
  (wrap (escape_quotes (str_or_empty (name b))) ++ "," ++
   bare (lead_score b) "0" ++ "," ++
   bare (rating b) "" ++ "," ++
   bare (review_count b) "" ++ "," ++
   wrap (escape_quotes (str_or_empty (website b))) ++ "," ++
   wrap (escape_quotes (str_or_empty (phone b))) ++ "," ++
   wrap (escape_quotes (str_or_empty (address b))))%string.

(** The line the specification describes: every one of the seven fields
    between double quotes. *)
Definition row_line_all_quoted (b : Business) : string :=
  String.concat ","
    [ wrap (escape_quotes (str_or_empty (name b)));
      wrap (bare (lead_score b) "0");
      wrap (bare (rating b) "");
      wrap (bare (review_count b) "");
      wrap (escape_quotes (str_or_empty (website b)));
      wrap (escape_quotes (str_or_empty (phone b)));
      wrap (escape_quotes (str_or_empty (address b))) ].

(** Reading an escaped text back: a pair of double quotes stands for one. *)
Fixpoint unescape_quotes (s : string) : string :=
  match s with
  | EmptyString => EmptyString
  | String c s' =>
      if Ascii.eqb c dquote then
        match s' with
        | String _ s'' => String dquote (unescape_quotes s'')
        | EmptyString => String c EmptyString
        end
      else String c (unescape_quotes s')
  end.

(** The name of the export example of the specification. *)
Definition he_said_hi : string :=
  ("He said " ++ String dquote ("hi" ++ String dquote EmptyString))%string.

Definition quoting : Business :=
  mkBusiness (of_Z 4) (Some he_said_hi) None None None None None None.

(** ** Pages and statistics *)

(** The pages of [bs], first to last. *)
Definition allPages (bs : list Business) : list (list Business) :=
  map (fun i => pageData bs (Z.of_nat i)) (seq 0 (Z.to_nat (totalPages bs))).

(** The three counts of the statistics bar, over the whole of [bs]. *)
Definition stats_of (bs : list Business) : Z * Z * Z :=
  let total := Z.of_nat (List.length bs) in
  let withWebsite :=
    Z.of_nat (List.length (filter (fun b => str_truthy (website b)) bs)) in
  (total, withWebsite, total - withWebsite).

(** An event other than a search. *)
Definition no_search (e : Event) : Prop :=
  match e with
  | Search _ _ _ => False
  | _ => True
  end.

(** Five businesses, three of them with a website. *)
Definition five : list Business :=
  [unrated; zero_rated; well_rated; quoting; well_rated].

(** Twenty-five businesses, all without a website. *)
Definition twenty_five : list Business := repeat zero_rated 25.

Definition five_found : SearchResult := mkSearchResult (JNum (of_Z 8)) five.

(** A server that has the research of business 3 on file, knows nothing
    of its SEO analysis, and fails on every other request. *)
Definition sample_server (req : Api.Request) : outcome Api.Response :=
  if String.eqb (Api.req_url req) "/api/research/3" then
    Returned (Api.mkResponse 200
                (Returned (JObj [("business_name", JStr "Bean House")])))
  else if String.eqb (Api.req_url req) "/api/seo/3" then
    Returned (Api.mkResponse 404 (Returned (JObj [("detail", JStr "Not found")])))
  else
    Returned (Api.mkResponse 500 (Returned (JObj [("detail", JStr "Boom")]))).


(** ** Words for the further properties *)

(** The state [st] with [bs] as its stored list. *)
Definition with_businesses (bs : list Business) (st : State) : State :=
  mkState (currentSearchId st) bs (currentPage st)
          (websiteFilter st) (ratingFilter st) (resultsBody st)
          (paginationControls st) (statistics st) (emptyState st)
          (statsBar st) (filtersSection st) (resultsSection st) (errorState st).

(** [l1] is [l2] with some items left out, the others in their order. *)
Inductive Subsequence {A : Type} : list A -> list A -> Prop :=
  | Subsequence_nil : Subsequence [] []
  | Subsequence_skip (a : A) (l1 l2 : list A) :
      Subsequence l1 l2 -> Subsequence l1 (a :: l2)
  | Subsequence_keep (a : A) (l1 l2 : list A) :
      Subsequence l1 l2 -> Subsequence (a :: l1) (a :: l2).

(** The filtered view of [st] were its two controls at [w] and [r]. *)
Definition view (w r : string) (st : State) : list Business :=
  getFilteredBusinesses (set_filters w r st).

(** A click on one of the two pagination buttons. *)
Definition is_click (e : Event) : Prop :=
  match e with
  | ClickPrev | ClickNext => True
  | _ => False
  end.

(** The code unit [c] does not occur in [s]. *)
Fixpoint lacks (c : ascii) (s : string) : bool :=
  match s with
  | EmptyString => true
  | String c' s' => negb (Ascii.eqb c' c) && lacks c s'
  end.

(** Reading markup back as text: the four entities stand for their
    code units. *)
Fixpoint unescape_text (s : string) : string :=
  match s with
  | EmptyString => EmptyString
  | String "&" (String "a" (String "m" (String "p" (String ";" rest)))) =>
      String "&" (unescape_text rest)
  | String "&" (String "n" (String "b" (String "s" (String "p" (String ";" rest))))) =>
      String nbsp (unescape_text rest)
  | String "&" (String "l" (String "t" (String ";" rest))) =>
      String "<" (unescape_text rest)
  | String "&" (String "g" (String "t" (String ";" rest))) =>
      String ">" (unescape_text rest)
  | String c rest => String c (unescape_text rest)
  end.

(** How often the code unit [c] occurs in [s]. *)
Fixpoint count_unit (c : ascii) (s : string) : nat :=
  match s with
  | EmptyString => O
  | String c' s' => ((if Ascii.eqb c' c then 1 else 0) + count_unit c s')%nat
  end.

(** The statistics bar describes the stored list. *)
Definition stats_current (st : State) : Prop :=
  statistics st = Some (stats_of (currentBusinesses st)).








(* ================================================================== *)
(** * Properties *)
(* ================================================================== *)

(** ** Numbers *)

Lemma parseFloat_empty : parseFloat "" = NaN.
Proof. reflexivity. Qed.

(** A number above zero is truthy: it is neither a zero nor [NaN]. *)
Lemma positive_truthy (x : number) : ltb zero x = true -> truthy x = true.
Proof.
  destruct x as [s | s | | s m e]; unfold ltb, SFltb; simpl;
    intros H; congruence.
Qed.

Lemma is_zero_falsy (x : number) : is_zero x = true -> truthy x = false.
Proof.
  destruct x as [s | s | | s m e]; unfold is_zero, SFeqb; simpl;
    try reflexivity; destruct s; discriminate.
Qed.

(** A truthy threshold comes from a control that holds some text. *)
Lemma truthy_threshold_set (v : string) :
  truthy (parseFloat v) = true -> nonempty v = true.
Proof. destruct v; [ discriminate | reflexivity ]. Qed.

(** What the rating control and the export rely on, on plain decimals. *)
Example number_texts :
  map (fun s => toString (parseFloat s)) ["3.5"; "4"; "0"; "4.50"; " 3"; "abc"; ""]
  = ["3.5"; "4"; "0"; "4.5"; "3"; "NaN"; "NaN"] /\
  map (fun s => truthy (parseFloat s)) ["3.5"; "4"; "0"; "0.0"; "-0"; "abc"]
  = [true; true; false; false; false; false] /\
  map toString [of_Z 85; of_Z 120; of_Z 0; of_Z 1000000] = ["85"; "120"; "0"; "1000000"].
Proof. vm_compute. repeat split. Qed.

(** ** The filtered view *)

Lemma filter_true {A : Type} (l : list A) : filter (fun _ => true) l = l.
Proof. induction l as [| a l IH]; simpl; congruence. Qed.

Lemma filter_filter {A : Type} (f g : A -> bool) (l : list A) :
  filter g (filter f l) = filter (fun a => f a && g a) l.
Proof.
  induction l as [| a l IH]; simpl; [ reflexivity | ].
  destruct (f a); simpl; [ destruct (g a) | ]; rewrite IH; reflexivity.
Qed.

(** The filtered view is one stable filter of the stored list. *)
Lemma getFilteredBusinesses_filter (st : State) :
  getFilteredBusinesses st =
  filter (fun b => website_keeps st b && rating_keeps st b) (currentBusinesses st).
Proof.
  unfold getFilteredBusinesses, website_keeps, rating_keeps.
  destruct (String.eqb (websiteFilter st) "true");
    [ | destruct (String.eqb (websiteFilter st) "false") ];
    (destruct (minRating st) as [m |]; [ destruct (truthy m) | ]);
    rewrite ?filter_filter; simpl;
    try (apply filter_ext; intros b; rewrite ?andb_true_r; reflexivity);
    symmetry; apply filter_true.
Qed.

Lemma getFilteredBusinesses_In (st : State) (b : Business) :
  In b (getFilteredBusinesses st) <->
  In b (currentBusinesses st) /\ website_keeps st b = true /\ rating_keeps st b = true.
Proof.
  rewrite getFilteredBusinesses_filter, filter_In, andb_true_iff. tauto.
Qed.

(** With a truthy threshold, only truthy ratings survive. *)
Lemma rating_keeps_truthy (st : State) (b : Business) :
  truthy (parseFloat (ratingFilter st)) = true ->
  rating_keeps st b = true ->
  num_truthy (rating b) = true.
Proof.
  intros Hm. unfold rating_keeps, minRating.
  rewrite (truthy_threshold_set _ Hm), Hm.
  destruct (rating b) as [r |]; simpl; [ | discriminate ].
  intros H. apply andb_true_iff in H. tauto.
Qed.

(** ** Missing and zero ratings under a rating threshold *)

(** A threshold that parses to a falsy number switches the rating filter
    off: the view is then decided by the website filter alone. *)
Lemma falsy_threshold_ignored (st : State) :
  truthy (parseFloat (ratingFilter st)) = false ->
  getFilteredBusinesses st = filter (website_keeps st) (currentBusinesses st).
Proof.
  intros Hm. rewrite getFilteredBusinesses_filter.
  apply filter_ext. intros b. unfold rating_keeps, minRating.
  destruct (nonempty (ratingFilter st)); [ rewrite Hm | ]; apply andb_true_r.
Qed.

(** C1 (amended): for every stored list and every rating threshold whose
    parsed value is a non-zero number (every positive threshold is one), a
    business whose rating is absent is not in the filtered view; a
    threshold that parses to 0 or to NaN applies no rating filter: the
    view is the one the same website selection gives with the rating
    control empty. *)
Theorem missing_rating_excluded (st : State) (b : Business) :
  (truthy (parseFloat (ratingFilter st)) = true ->
   rating b = None ->
   ~ In b (getFilteredBusinesses st)) /\
  (truthy (parseFloat (ratingFilter st)) = false ->
   getFilteredBusinesses st
   = getFilteredBusinesses (set_filters (websiteFilter st) "" st)).
Proof.
  split.
  - intros Hm Hr Hin.
    apply getFilteredBusinesses_In in Hin. destruct Hin as (_ & _ & Hk).
    apply (rating_keeps_truthy st b Hm) in Hk.
    rewrite Hr in Hk. discriminate.
  - intros Hm. rewrite (falsy_threshold_ignored st Hm).
    rewrite (falsy_threshold_ignored (set_filters (websiteFilter st) "" st))
      by reflexivity.
    reflexivity.
Qed.

Lemma missing_rating_excluded_witness :
  ~ In unrated (getFilteredBusinesses (sample_state [unrated; well_rated] 0 "" "3.5")) /\
  getFilteredBusinesses (sample_state [unrated; well_rated] 0 "true" "0")
  = getFilteredBusinesses
      (set_filters (websiteFilter (sample_state [unrated; well_rated] 0 "true" "0")) ""
         (sample_state [unrated; well_rated] 0 "true" "0")).
Proof.
  split.
  - apply (proj1 (missing_rating_excluded
                    (sample_state [unrated; well_rated] 0 "" "3.5") unrated)).
    + vm_compute. reflexivity.
    + reflexivity.
  - apply (proj2 (missing_rating_excluded
                    (sample_state [unrated; well_rated] 0 "true" "0") unrated)).
    vm_compute. reflexivity.
Defined.

(** C1 as stated fails at the threshold 0: the rating control holds the
    text 0, so a threshold is set, yet the business without a rating stays
    in the filtered view. *)
Lemma missing_rating_kept_at_zero :
  nonempty (ratingFilter (sample_state [unrated; well_rated] 0 "" "0")) = true /\
  rating unrated = None /\
  getFilteredBusinesses (sample_state [unrated; well_rated] 0 "" "0")
  = [unrated; well_rated].
Proof. vm_compute. repeat split. Qed.

(** C9: under every positive rating threshold, a business whose rating is
    exactly 0 is not in the filtered view. *)
Theorem zero_rating_excluded (st : State) (b : Business) (r : number) :
  ltb zero (parseFloat (ratingFilter st)) = true ->
  rating b = Some r ->
  is_zero r = true ->
  ~ In b (getFilteredBusinesses st).
Proof.
  intros Hm Hr Hz Hin.
  apply getFilteredBusinesses_In in Hin. destruct Hin as (_ & _ & Hk).
  apply (rating_keeps_truthy st b (positive_truthy _ Hm)) in Hk.
  rewrite Hr in Hk. simpl in Hk.
  rewrite (is_zero_falsy r Hz) in Hk. discriminate.
Qed.

Lemma zero_rating_excluded_witness :
  ~ In zero_rated (getFilteredBusinesses (sample_state [zero_rated; well_rated] 0 "" "3.5")).
Proof.
  apply (zero_rating_excluded
           (sample_state [zero_rated; well_rated] 0 "" "3.5") zero_rated zero).
  - vm_compute. reflexivity.
  - reflexivity.
  - reflexivity.
Defined.

(** ** CSV export *)

Lemma header_joined : String.concat "," csv_headers = header_line.
Proof. reflexivity. Qed.

Lemma quoted_wrap (v : option string) :
  quoted v = wrap (escape_quotes (str_or_empty v)).
Proof. reflexivity. Qed.

(** Joining the cells of a row gives its line. *)
Lemma csv_row_line (b : Business) :
  String.concat "," (map cell_text (csv_row b)) = row_line b.
Proof.
  unfold csv_row, row_line, bare.
  destruct (lead_score b) as [l |]; [ destruct (truthy l) | ];
    (destruct (rating b) as [r |]; [ destruct (truthy r) | ]);
    (destruct (review_count b) as [c |]; [ destruct (truthy c) | ]);
    reflexivity.
Qed.

Lemma length_zero_nil {A : Type} (l : list A) :
  (Z.of_nat (List.length l) =? 0) = true <-> l = [].
Proof.
  destruct l as [| a l]; split; intros H; try reflexivity; discriminate.
Qed.

(** The guard of [exportCSV] looks at the stored list only. *)
Lemma exportCSV_none (now : string) (st : State) :
  exportCSV now st = None <-> currentBusinesses st = [].
Proof.
  unfold exportCSV. rewrite <- length_zero_nil.
  destruct (Z.of_nat (List.length (currentBusinesses st)) =? 0);
    split; intros H; congruence.
Qed.

(** Past the guard, the file holds the header and a line for each
    business of the filtered view. *)
Lemma exportCSV_some (now : string) (st : State) :
  currentBusinesses st <> [] ->
  exportCSV now st =
  Some (mkDownload ("leads_" ++ before_T now ++ ".csv")
          (String.concat newline
             (header_line :: map row_line (getFilteredBusinesses st)))).
Proof.
  intros Hne. unfold exportCSV.
  destruct (Z.of_nat (List.length (currentBusinesses st)) =? 0) eqn:Hlen.
  - apply length_zero_nil in Hlen. contradiction.
  - rewrite map_map, header_joined.
    do 4 f_equal. apply map_ext. intros b. apply csv_row_line.
Qed.

(** Escaping loses nothing: reading the doubled quotes back gives the
    text that was escaped. *)
Lemma unescape_escape (s : string) : unescape_quotes (escape_quotes s) = s.
Proof.
  induction s as [| c s IH]; simpl; [ reflexivity | ].
  destruct (Ascii.eqb c dquote) eqn:Hc; simpl.
  - apply Ascii.eqb_eq in Hc. subst c. rewrite IH. reflexivity.
  - rewrite Hc, IH. reflexivity.
Qed.

(** The example of the specification: the escaped name, quoted. *)
Example he_said_hi_quoted :
  quoted (Some he_said_hi) =
  String dquote
    ("He said " ++ String dquote (String dquote
       ("hi" ++ String dquote (String dquote (String dquote EmptyString))))).
Proof. reflexivity. Qed.

(** C3 (amended): for every non-empty stored list, the export is a file
    whose first line is the header and whose further lines are the
    businesses of the filtered view, in order.  In each line the name, the
    website, the phone and the address stand between double quotes, their
    own double quotes doubled (so that the text can be read back), and an
    absent one is the empty text between quotes; the lead score, the
    rating and the review count are written bare, an absent rating or
    review count as the empty text and an absent lead score as 0. *)
Theorem export_csv_layout (now : string) (st : State) :
  currentBusinesses st <> [] ->
  exists file,
    exportCSV now st = Some file /\
    content file =
      String.concat newline (header_line :: map row_line (getFilteredBusinesses st)) /\
    forall b,
      map cell_text (csv_row b) =
        [ wrap (escape_quotes (str_or_empty (name b)));
          bare (lead_score b) "0";
          bare (rating b) "";
          bare (review_count b) "";
          wrap (escape_quotes (str_or_empty (website b)));
          wrap (escape_quotes (str_or_empty (phone b)));
          wrap (escape_quotes (str_or_empty (address b))) ] /\
      unescape_quotes (escape_quotes (str_or_empty (name b))) = str_or_empty (name b) /\
      (lead_score b = None -> bare (lead_score b) "0" = "0") /\
      (rating b = None -> bare (rating b) "" = "") /\
      (review_count b = None -> bare (review_count b) "" = "") /\
      (website b = None -> quoted (website b) = wrap "") /\
      (phone b = None -> quoted (phone b) = wrap "") /\
      (address b = None -> quoted (address b) = wrap "").
Proof.
  intros Hne. eexists. split; [ apply (exportCSV_some now st Hne) | ].
  split; [ reflexivity | ].
  intros b. split.
  - unfold csv_row, bare.
    destruct (lead_score b) as [l |]; [ destruct (truthy l) | ];
      (destruct (rating b) as [r |]; [ destruct (truthy r) | ]);
      (destruct (review_count b) as [c |]; [ destruct (truthy c) | ]);
      reflexivity.
  - split; [ apply unescape_escape | ].
    repeat split; intros H; rewrite H; reflexivity.
Qed.

Lemma export_csv_layout_witness :
  exists file,
    exportCSV "2026-11-02T09:30:00.000Z"
      (sample_state [quoting; well_rated] 0 "" "") = Some file /\
    content file =
      String.concat newline
        (header_line ::
         map row_line
           (getFilteredBusinesses (sample_state [quoting; well_rated] 0 "" ""))) /\
    forall b,
      map cell_text (csv_row b) =
        [ wrap (escape_quotes (str_or_empty (name b)));
          bare (lead_score b) "0";
          bare (rating b) "";
          bare (review_count b) "";
          wrap (escape_quotes (str_or_empty (website b)));
          wrap (escape_quotes (str_or_empty (phone b)));
          wrap (escape_quotes (str_or_empty (address b))) ] /\
      unescape_quotes (escape_quotes (str_or_empty (name b))) = str_or_empty (name b) /\
      (lead_score b = None -> bare (lead_score b) "0" = "0") /\
      (rating b = None -> bare (rating b) "" = "") /\
      (review_count b = None -> bare (review_count b) "" = "") /\
      (website b = None -> quoted (website b) = wrap "") /\
      (phone b = None -> quoted (phone b) = wrap "") /\
      (address b = None -> quoted (address b) = wrap "").
Proof.
  apply (export_csv_layout "2026-11-02T09:30:00.000Z"
           (sample_state [quoting; well_rated] 0 "" "")).
  discriminate.
Defined.

(** C3 as stated fails on the numeric fields: the line of a business with
    a lead score, a rating and a review count carries them bare, and so
    differs from the line with all seven fields quoted. *)
Lemma export_numbers_unquoted :
  option_map content
    (exportCSV "2026-11-02T09:30:00.000Z" (sample_state [well_rated] 0 "" ""))
  = Some (header_line ++ newline ++
          wrap "Bean House" ++ ",85,4.5,120," ++
          wrap "https://bean.example" ++ "," ++ wrap "" ++ "," ++
          wrap "9 Pine Ave")%string /\
  row_line_all_quoted well_rated
  = (wrap "Bean House" ++ "," ++ wrap "85" ++ "," ++ wrap "4.5" ++ "," ++
     wrap "120" ++ "," ++ wrap "https://bean.example" ++ "," ++ wrap "" ++
     "," ++ wrap "9 Pine Ave")%string /\
  String.eqb (row_line well_rated) (row_line_all_quoted well_rated) = false.
Proof. vm_compute. repeat split. Qed.

(** The two-row example of the specification: the header line, then the
    escaped name between quotes at the head of the first row. *)
Example export_two_rows :
  option_map content
    (exportCSV "2026-11-02T09:30:00.000Z"
       (sample_state [quoting; well_rated] 0 "" ""))
  = Some (header_line ++ newline ++
          wrap ("He said " ++ String dquote (String dquote
                  ("hi" ++ String dquote (String dquote EmptyString)))) ++
          ",0,,," ++ wrap "" ++ "," ++ wrap "" ++ "," ++ wrap "" ++ newline ++
          wrap "Bean House" ++ ",85,4.5,120," ++
          wrap "https://bean.example" ++ "," ++ wrap "" ++ "," ++
          wrap "9 Pine Ave")%string.
Proof. vm_compute. reflexivity. Qed.

(** C10: when the stored list is not empty and the filters leave nothing
    of it, the export still produces a file, and the file is the header
    line alone; the export is withheld exactly when the stored list is
    empty, whatever the filters. *)
Theorem export_header_only (now : string) (st : State) :
  currentBusinesses st <> [] ->
  getFilteredBusinesses st = [] ->
  (exists file, exportCSV now st = Some file /\ content file = header_line) /\
  (forall st', exportCSV now st' = None <-> currentBusinesses st' = []).
Proof.
  intros Hne Hnone. split.
  - eexists. split; [ apply (exportCSV_some now st Hne) | ].
    rewrite Hnone. reflexivity.
  - intros st'. apply exportCSV_none.
Qed.

Lemma export_header_only_witness :
  (exists file,
     exportCSV "2026-11-02T09:30:00.000Z"
       (sample_state [unrated; well_rated] 0 "false" "") = Some file /\
     content file = header_line) /\
  (forall st',
     exportCSV "2026-11-02T09:30:00.000Z" st' = None <-> currentBusinesses st' = []).
Proof.
  apply (export_header_only "2026-11-02T09:30:00.000Z"
           (sample_state [unrated; well_rated] 0 "false" "")).
  - discriminate.
  - reflexivity.
Defined.

(** ** Pagination *)

(** [ceil_div a b] is the least integer whose [b]-fold reaches [a]. *)
Lemma ceil_div_bounds (a b : Z) :
  0 < b -> b * (ceil_div a b - 1) < a <= b * ceil_div a b.
Proof.
  intros Hb. unfold ceil_div.
  pose proof (Z.div_mod (- a) b ltac:(lia)) as Hdm.
  pose proof (Z.mod_pos_bound (- a) b Hb) as Hmod.
  nia.
Qed.

Lemma ceil_div_add (a b : Z) : 0 < b -> ceil_div a b = (a + (b - 1)) / b.
Proof.
  intros Hb. pose proof (ceil_div_bounds a b Hb) as [Hlo Hhi].
  apply Z.div_unique with (r := a + (b - 1) - b * ceil_div a b); lia.
Qed.

(** From a page index that is not negative, [slice] takes ten items past
    the ones of the pages before. *)
Lemma pageData_firstn (bs : list Business) (p : Z) :
  0 <= p ->
  pageData bs p = firstn 10 (skipn (Z.to_nat (p * 10)) bs).
Proof.
  intros Hp. unfold pageData, slice, PAGE_SIZE.
  set (len := Z.of_nat (List.length bs)).
  replace (p * 10 <? 0) with false by (symmetry; apply Z.ltb_ge; lia).
  replace (p * 10 + 10 <? 0) with false by (symmetry; apply Z.ltb_ge; lia).
  destruct (Z.le_gt_cases len (p * 10)) as [Hout | Hin].
  - rewrite (Z.min_r (p * 10) len), (Z.min_r (p * 10 + 10) len) by lia.
    rewrite Z.sub_diag. simpl firstn.
    rewrite (skipn_all2 (n := Z.to_nat (p * 10))) by (subst len; lia).
    reflexivity.
  - rewrite (Z.min_l (p * 10) len) by lia.
    destruct (Z.le_gt_cases (p * 10 + 10) len) as [Hfull | Hlast].
    + rewrite (Z.min_l (p * 10 + 10) len) by lia.
      f_equal. lia.
    + rewrite (Z.min_r (p * 10 + 10) len) by lia.
      rewrite !firstn_all2; [ reflexivity | | ];
        rewrite length_skipn; subst len; lia.
Qed.

(** Ten at a time, [n] chunks rebuild a list of at most [10 * n] items. *)
Lemma chunks_concat {A : Type} (n : nat) :
  forall l : list A,
    (List.length l <= n * 10)%nat ->
    List.concat (map (fun i => firstn 10 (skipn (i * 10) l)) (seq 0 n)) = l.
Proof.
  induction n as [| n IH]; intros l Hlen.
  - destruct l; [ reflexivity | simpl in Hlen; lia ].
  - cbn [seq map List.concat]. rewrite <- seq_shift, map_map.
    transitivity (firstn 10 l ++ skipn 10 l)%list; [ | apply firstn_skipn ].
    f_equal.
    rewrite <- (IH (skipn 10 l)) by (rewrite length_skipn; lia).
    f_equal. apply map_ext. intros i.
    rewrite skipn_skipn. do 2 f_equal. lia.
Qed.

Lemma totalPages_bounds (bs : list Business) :
  10 * (totalPages bs - 1) < Z.of_nat (List.length bs) <= 10 * totalPages bs.
Proof. apply (ceil_div_bounds (Z.of_nat (List.length bs)) 10). lia. Qed.

Lemma allPages_concat (bs : list Business) : List.concat (allPages bs) = bs.
Proof.
  unfold allPages.
  pose proof (totalPages_bounds bs) as [_ Hhi].
  rewrite <- (chunks_concat (Z.to_nat (totalPages bs)) bs) at 2 by lia.
  f_equal. apply map_ext. intros i.
  rewrite pageData_firstn by lia. do 2 f_equal. lia.
Qed.

(** Drawing the pagination bar leaves the table alone. *)
Lemma renderPage_resultsBody (bs : list Business) (st : State) :
  resultsBody (renderPage bs st) = pageData bs (currentPage st).
Proof.
  unfold renderPage, renderPaginationControls, renderTable.
  destruct (totalPages bs <=? 1); reflexivity.
Qed.

(** C2: for a sequence of N businesses the number of pages is the ceiling
    of N/10 (none when N is 0), the page of index p holds the items from
    10p up to, not including, 10p+10 (none when 10p is N or more), and the
    pages of index 0 up to the last, put end to end, are the sequence. *)
Theorem pages_cover (bs : list Business) :
  let N := Z.of_nat (List.length bs) in
  totalPages bs = (N + 9) / 10 /\
  10 * (totalPages bs - 1) < N <= 10 * totalPages bs /\
  (N = 0 -> totalPages bs = 0) /\
  (forall p, 0 <= p -> pageData bs p = firstn 10 (skipn (Z.to_nat (p * 10)) bs)) /\
  (forall p, N <= p * 10 -> pageData bs p = []) /\
  List.concat (allPages bs) = bs /\
  (forall st, resultsBody (renderPage bs st) = pageData bs (currentPage st)) /\
  (forall st, resultsBody (applyFilters st)
              = pageData (getFilteredBusinesses st) (currentPage st)).
Proof.
  intros N.
  pose proof (totalPages_bounds bs) as Hb. fold N in Hb.
  repeat split; try lia.
  - unfold totalPages, PAGE_SIZE. apply ceil_div_add. lia.
  - intros p Hp. apply pageData_firstn. exact Hp.
  - intros p Hp. rewrite pageData_firstn by lia.
    rewrite skipn_all2 by (subst N; lia). reflexivity.
  - apply allPages_concat.
  - intros st. apply renderPage_resultsBody.
  - intros st. apply renderPage_resultsBody.
Qed.

(** Twenty-five businesses make three pages, of ten, ten and five. *)
Example twenty_five_pages :
  totalPages twenty_five = 3 /\
  map (@List.length Business) (allPages twenty_five) = [10; 10; 5]%nat /\
  pageData twenty_five 3 = [].
Proof. vm_compute. repeat split. Qed.

(** ** What rendering leaves alone *)

(** Rendering writes the table body and the pagination bar and nothing
    else: the three variables, the filter controls and the statistics of
    the state are those it started from. *)
Lemma renderPage_frame (bs : list Business) (st : State) :
  let st' := renderPage bs st in
  currentSearchId st' = currentSearchId st /\
  currentBusinesses st' = currentBusinesses st /\
  currentPage st' = currentPage st /\
  websiteFilter st' = websiteFilter st /\
  ratingFilter st' = ratingFilter st /\
  statistics st' = statistics st.
Proof.
  unfold renderPage, renderPaginationControls, renderTable.
  destruct (totalPages bs <=? 1); repeat split.
Qed.

Ltac frame_of H :=
  let a := fresh "Hid" in
  let b := fresh "Hbs" in
  let c := fresh "Hpage" in
  let d := fresh "Hweb" in
  let e := fresh "Hrat" in
  let f := fresh "Hstat" in
  pose proof H as (a & b & c & d & e & f); cbv zeta in a, b, c, d, e, f.

(** The filtered view reads the stored list and the two filter controls. *)
Lemma getFilteredBusinesses_ext (st st' : State) :
  currentBusinesses st' = currentBusinesses st ->
  websiteFilter st' = websiteFilter st ->
  ratingFilter st' = ratingFilter st ->
  getFilteredBusinesses st' = getFilteredBusinesses st.
Proof.
  intros Hb Hw Hr. unfold getFilteredBusinesses, minRating.
  rewrite Hb, Hw, Hr. reflexivity.
Qed.

Lemma applyFilters_statistics (st : State) :
  statistics (applyFilters st) = statistics st.
Proof. unfold applyFilters. frame_of (renderPage_frame (getFilteredBusinesses st) st). assumption. Qed.

(** No event but a search touches the statistics. *)
Lemma step_statistics (st : State) (e : Event) :
  no_search e -> statistics (step st e) = statistics st.
Proof.
  destruct e as [q l reply | v | v | |]; simpl; intros Hns;
    [ contradiction | | | | ].
  - unfold handleFilterChange. rewrite applyFilters_statistics. reflexivity.
  - unfold handleFilterChange. rewrite applyFilters_statistics. reflexivity.
  - destruct (paginationControls st) as [pc |]; [ | reflexivity ].
    destruct (pg_prevDisabled pc); [ reflexivity | ].
    unfold prevBtn_click. destruct (0 <? currentPage st); [ | reflexivity ].
    rewrite applyFilters_statistics. reflexivity.
  - destruct (paginationControls st) as [pc |]; [ | reflexivity ].
    destruct (pg_nextDisabled pc); [ reflexivity | ].
    unfold nextBtn_click.
    destruct (currentPage st <? pg_totalPages pc - 1); [ | reflexivity ].
    rewrite applyFilters_statistics. reflexivity.
Qed.

Lemma run_statistics (es : list Event) :
  forall st, Forall no_search es -> statistics (run st es) = statistics st.
Proof.
  induction es as [| e es IH]; intros st Hes; [ reflexivity | ].
  inversion Hes as [| e' es' He Hes']; subst.
  unfold run in *. simpl. rewrite (IH (step st e) Hes').
  apply step_statistics. exact He.
Qed.

(** ** A successful search *)

Lemma showResults_frame (bs : list Business) (st : State) :
  let st' := showResults bs st in
  currentSearchId st' = currentSearchId st /\
  currentBusinesses st' = currentBusinesses st /\
  currentPage st' = currentPage st /\
  websiteFilter st' = websiteFilter st /\
  ratingFilter st' = ratingFilter st /\
  statistics st' = statistics st.
Proof.
  unfold showResults.
  destruct (Z.of_nat (List.length bs) =? 0); [ repeat split | ].
  frame_of (renderPage_frame bs (set_panels false true st)).
  repeat split; assumption.
Qed.

Lemma handleSearch_success (q l : string) (result : SearchResult) (st : State) :
  blank q = false -> blank l = false ->
  handleSearch q l (Returned result) st =
  updateStats (businesses result)
    (showResults (businesses result)
       (set_search (search_id result) (businesses result) (hideError st))).
Proof. intros Hq Hl. unfold handleSearch. rewrite Hq, Hl. reflexivity. Qed.

Lemma handleSearch_statistics (q l : string) (result : SearchResult) (st : State) :
  blank q = false -> blank l = false ->
  statistics (handleSearch q l (Returned result) st) = Some (stats_of (businesses result)).
Proof. intros Hq Hl. rewrite (handleSearch_success q l result st Hq Hl). reflexivity. Qed.

(** C5: the statistics a search leaves in the bar are the length of the
    whole result, the number of its businesses with a website, and their
    difference; they are the same under any two filter selections the
    search finds in place, and no later change of a filter or of the page
    alters them. *)
Theorem stats_ignore_filters
    (q l : string) (result : SearchResult) (st : State)
    (w1 r1 w2 r2 : string) (es : list Event) :
  blank q = false -> blank l = false -> Forall no_search es ->
  let total := Z.of_nat (List.length (businesses result)) in
  let withWebsite :=
    Z.of_nat (List.length
                (filter (fun b => str_truthy (website b)) (businesses result))) in
  statistics (handleSearch q l (Returned result) (set_filters w1 r1 st))
  = Some (total, withWebsite, total - withWebsite) /\
  statistics (handleSearch q l (Returned result) (set_filters w1 r1 st))
  = statistics (handleSearch q l (Returned result) (set_filters w2 r2 st)) /\
  statistics (run (handleSearch q l (Returned result) (set_filters w1 r1 st)) es)
  = Some (total, withWebsite, total - withWebsite).
Proof.
  intros Hq Hl Hes total withWebsite.
  rewrite (run_statistics es _ Hes).
  rewrite !(handleSearch_statistics q l result _ Hq Hl).
  repeat split.
Qed.

Lemma stats_ignore_filters_witness :
  statistics (handleSearch "coffee shop" "Seattle" (Returned five_found)
                (set_filters "true" "4" (sample_state [] 2 "" "")))
  = Some (5, 3, 2) /\
  statistics (handleSearch "coffee shop" "Seattle" (Returned five_found)
                (set_filters "true" "4" (sample_state [] 2 "" "")))
  = statistics (handleSearch "coffee shop" "Seattle" (Returned five_found)
                  (set_filters "" "" (sample_state [] 2 "" ""))) /\
  statistics (run (handleSearch "coffee shop" "Seattle" (Returned five_found)
                     (set_filters "true" "4" (sample_state [] 2 "" "")))
                [ChangeWebsiteFilter "false"; ClickNext; ChangeRatingFilter "3"])
  = Some (5, 3, 2).
Proof.
  apply (stats_ignore_filters "coffee shop" "Seattle" five_found
           (sample_state [] 2 "" "") "true" "4" "" ""
           [ChangeWebsiteFilter "false"; ClickNext; ChangeRatingFilter "3"]).
  - reflexivity.
  - reflexivity.
  - repeat constructor.
Defined.

(** After a search that found something, the table shows the first page
    of the whole result, whatever the filter controls hold. *)
Lemma search_shows_first_page
    (q l : string) (result : SearchResult) (st : State) :
  blank q = false -> blank l = false -> businesses result <> [] ->
  resultsBody (handleSearch q l (Returned result) st)
  = pageData (businesses result) 0.
Proof.
  intros Hq Hl Hne.
  rewrite (handleSearch_success q l result st Hq Hl).
  simpl. unfold showResults.
  destruct (Z.of_nat (List.length (businesses result)) =? 0) eqn:Hlen.
  - apply length_zero_nil in Hlen. contradiction.
  - apply renderPage_resultsBody.
Qed.

(** C4 (amended): a successful search puts its result, identifier and
    list, in place of the stored one and sets the page index to 0; the
    filter selection is left as it was, both controls keeping the values
    they had. *)
Theorem search_replaces_result
    (q l : string) (result : SearchResult) (st : State) :
  blank q = false -> blank l = false ->
  let st' := handleSearch q l (Returned result) st in
  currentSearchId st' = search_id result /\
  currentBusinesses st' = businesses result /\
  currentPage st' = 0 /\
  websiteFilter st' = websiteFilter st /\
  ratingFilter st' = ratingFilter st.
Proof.
  intros Hq Hl st'. subst st'.
  rewrite (handleSearch_success q l result st Hq Hl).
  set (st0 := set_search (search_id result) (businesses result) (hideError st)).
  frame_of (showResults_frame (businesses result) st0).
  repeat split; simpl; assumption.
Qed.

Lemma search_replaces_result_witness :
  let st' := handleSearch "coffee shop" "Seattle" (Returned five_found)
               (sample_state twenty_five 2 "true" "4") in
  currentSearchId st' = search_id five_found /\
  currentBusinesses st' = businesses five_found /\
  currentPage st' = 0 /\
  websiteFilter st' = websiteFilter (sample_state twenty_five 2 "true" "4") /\
  ratingFilter st' = ratingFilter (sample_state twenty_five 2 "true" "4").
Proof.
  apply (search_replaces_result "coffee shop" "Seattle" five_found
           (sample_state twenty_five 2 "true" "4")).
  - reflexivity.
  - reflexivity.
Defined.

(** C4 as stated fails on the filters: with the website control at true
    and the rating control at 4 before the search, both hold the same
    values after it, and the filtered view of the new state is a proper
    part of the new result. *)
Lemma search_keeps_filters :
  websiteFilter (handleSearch "coffee shop" "Seattle" (Returned five_found)
                   (sample_state twenty_five 2 "true" "4")) = "true" /\
  ratingFilter (handleSearch "coffee shop" "Seattle" (Returned five_found)
                  (sample_state twenty_five 2 "true" "4")) = "4" /\
  currentBusinesses (handleSearch "coffee shop" "Seattle" (Returned five_found)
                       (sample_state twenty_five 2 "true" "4")) = five /\
  getFilteredBusinesses (handleSearch "coffee shop" "Seattle" (Returned five_found)
                           (sample_state twenty_five 2 "true" "4"))
  = [well_rated; well_rated].
Proof. vm_compute. repeat split. Qed.

(** ** Changing a filter, turning a page *)

Lemma applyFilters_frame (st : State) :
  let st' := applyFilters st in
  currentSearchId st' = currentSearchId st /\
  currentBusinesses st' = currentBusinesses st /\
  currentPage st' = currentPage st /\
  websiteFilter st' = websiteFilter st /\
  ratingFilter st' = ratingFilter st /\
  statistics st' = statistics st.
Proof. apply renderPage_frame. Qed.

(** C7: whatever the page index and the stored result, a change of
    filter sets the page index to 0 and leaves the stored list and the
    search identifier as they were; the filter controls hold the new
    selection and the table shows page 0 of the newly filtered view. *)
Theorem filter_change_resets_page (st : State) (value : string) :
  (currentPage (handleFilterChange st) = 0 /\
   currentBusinesses (handleFilterChange st) = currentBusinesses st /\
   currentSearchId (handleFilterChange st) = currentSearchId st) /\
  (let st' := step st (ChangeWebsiteFilter value) in
   currentPage st' = 0 /\
   currentBusinesses st' = currentBusinesses st /\
   currentSearchId st' = currentSearchId st /\
   websiteFilter st' = value /\
   ratingFilter st' = ratingFilter st /\
   resultsBody st' = pageData (getFilteredBusinesses st') 0) /\
  (let st' := step st (ChangeRatingFilter value) in
   currentPage st' = 0 /\
   currentBusinesses st' = currentBusinesses st /\
   currentSearchId st' = currentSearchId st /\
   websiteFilter st' = websiteFilter st /\
   ratingFilter st' = value /\
   resultsBody st' = pageData (getFilteredBusinesses st') 0).
Proof.
  split; [ | split ].
  - unfold handleFilterChange.
    frame_of (applyFilters_frame (set_currentPage 0 st)).
    repeat split; assumption.
  - cbv zeta. simpl step. unfold handleFilterChange.
    set (st0 := set_currentPage 0 (set_filters value (ratingFilter st) st)).
    frame_of (applyFilters_frame st0).
    repeat split; try assumption.
    rewrite (getFilteredBusinesses_ext st0 (applyFilters st0)) by assumption.
    unfold applyFilters at 1. rewrite renderPage_resultsBody. reflexivity.
  - cbv zeta. simpl step. unfold handleFilterChange.
    set (st0 := set_currentPage 0 (set_filters (websiteFilter st) value st)).
    frame_of (applyFilters_frame st0).
    repeat split; try assumption.
    rewrite (getFilteredBusinesses_ext st0 (applyFilters st0)) by assumption.
    unfold applyFilters at 1. rewrite renderPage_resultsBody. reflexivity.
Qed.

(** The example of the specification: on page 2, a new filter brings the
    table back to page 0 of the filtered list. *)
Example filter_change_from_page_two :
  let st := sample_state twenty_five 2 "" "" in
  currentPage (step st (ChangeWebsiteFilter "false")) = 0 /\
  List.length (resultsBody (step st (ChangeWebsiteFilter "false"))) = 10%nat /\
  currentBusinesses (step st (ChangeWebsiteFilter "false")) = twenty_five.
Proof. vm_compute. repeat split. Qed.

(** The bar that a rendering from the filtered view creates. *)
Lemma applyFilters_controls (st : State) :
  let total := totalPages (getFilteredBusinesses st) in
  paginationControls (applyFilters st) =
  if total <=? 1 then None
  else Some (mkPagination (currentPage st + 1) total
               (Z.of_nat (List.length (getFilteredBusinesses st)))
               (currentPage st =? 0) (total - 1 <=? currentPage st)).
Proof.
  unfold applyFilters, renderPage, renderPaginationControls, renderTable.
  cbv zeta. destruct (totalPages (getFilteredBusinesses st) <=? 1); reflexivity.
Qed.

(** On such a bar a click does what the listener does: the disabled
    buttons are those whose listener would hand the state back. *)
Lemma clicks_reach_listeners (st : State) :
  let st' := applyFilters st in
  let total := totalPages (getFilteredBusinesses st) in
  1 < total -> 0 <= currentPage st ->
  step st' ClickNext = nextBtn_click total st' /\
  step st' ClickPrev = prevBtn_click st'.
Proof.
  intros st' total Htotal Hpage. subst st'. simpl step.
  rewrite applyFilters_controls. fold total.
  replace (total <=? 1) with false by (symmetry; apply Z.leb_gt; lia).
  frame_of (applyFilters_frame st).
  cbn [pg_nextDisabled pg_prevDisabled pg_totalPages].
  unfold nextBtn_click, prevBtn_click. rewrite !Hpage0.
  split.
  - destruct (Z.leb_spec (total - 1) (currentPage st)) as [Hle | Hgt];
      [ | reflexivity ].
    replace (currentPage st <? total - 1) with false
      by (symmetry; apply Z.ltb_ge; lia).
    reflexivity.
  - destruct (Z.eqb_spec (currentPage st) 0) as [Hz | Hnz]; [ | reflexivity ].
    rewrite Hz. reflexivity.
Qed.

(** The page index never goes below 0. *)
Lemma step_page_nonneg (st : State) (e : Event) :
  0 <= currentPage st -> 0 <= currentPage (step st e).
Proof.
  intros Hpage. destruct e as [q l reply | v | v | |]; simpl step.
  - unfold handleSearch. destruct (blank q || blank l); [ exact Hpage | ].
    destruct reply as [result | message].
    + frame_of (showResults_frame (businesses result)
                  (set_search (search_id result) (businesses result) (hideError st))).
      simpl. rewrite Hpage0. simpl. lia.
    + exact Hpage.
  - unfold handleFilterChange.
    frame_of (applyFilters_frame (set_currentPage 0 (set_filters v (ratingFilter st) st))).
    rewrite Hpage0. simpl. lia.
  - unfold handleFilterChange.
    frame_of (applyFilters_frame (set_currentPage 0 (set_filters (websiteFilter st) v st))).
    rewrite Hpage0. simpl. lia.
  - destruct (paginationControls st) as [pc |]; [ | exact Hpage ].
    destruct (pg_prevDisabled pc); [ exact Hpage | ].
    unfold prevBtn_click. destruct (Z.ltb_spec 0 (currentPage st)); [ | exact Hpage ].
    frame_of (applyFilters_frame (set_currentPage (currentPage st - 1) st)).
    rewrite Hpage0. simpl. lia.
  - destruct (paginationControls st) as [pc |]; [ | exact Hpage ].
    destruct (pg_nextDisabled pc); [ exact Hpage | ].
    unfold nextBtn_click.
    destruct (currentPage st <? pg_totalPages pc - 1); [ | exact Hpage ].
    frame_of (applyFilters_frame (set_currentPage (currentPage st + 1) st)).
    rewrite Hpage0. simpl. lia.
Qed.

(** ** The two pagination buttons *)




(** ** The lookups by id *)

Lemma ok_range (r : Api.Response) :
  Api.ok r = true <-> 200 <= Api.status r <= 299.
Proof. unfold Api.ok. rewrite andb_true_iff, !Z.leb_le. tauto. Qed.

Lemma not_found_not_ok (r : Api.Response) : Api.status r = 404 -> Api.ok r = false.
Proof. intros H. unfold Api.ok. rewrite H. reflexivity. Qed.

(** The three lookups branch alike on the response. *)
Ltac lookup_cases :=
  let r := fresh "r" in
  let Hfetch := fresh "Hfetch" in
  intros r Hfetch; rewrite Hfetch;
  split; [ | split ];
  [ let H := fresh "H404" in
    intros H; rewrite (not_found_not_ok r H); simpl; rewrite H; reflexivity
  | let H := fresh "Hok" in
    intros H; apply ok_range in H; rewrite H; reflexivity
  | let H := fresh "Hnot" in
    let H' := fresh "Hnf" in
    let Hok := fresh "Hok" in
    intros H H'; destruct (Api.ok r) eqn:Hok;
    [ apply ok_range in Hok; contradiction
    | simpl; apply Z.eqb_neq in H'; rewrite H'; eexists; reflexivity ] ].

(** C8: each of the three lookups by id yields null when the server
    answers 404, yields what the JSON body parses to when the status is
    in 200-299, and throws on every other status outside 200-299. *)
Theorem lookups_by_id
    (fetch : Api.Request -> outcome Api.Response) (businessId : number) :
  (forall r,
     fetch (Api.mkRequest Api.GET (Api.research_url businessId)) = Returned r ->
     (Api.status r = 404 -> Api.getCompanyResearch fetch businessId = Returned JNull) /\
     (200 <= Api.status r <= 299 ->
      Api.getCompanyResearch fetch businessId = Api.json_body r) /\
     (~ 200 <= Api.status r <= 299 -> Api.status r <> 404 ->
      exists message, Api.getCompanyResearch fetch businessId = Thrown message)) /\
  (forall r,
     fetch (Api.mkRequest Api.GET (Api.seo_url businessId)) = Returned r ->
     (Api.status r = 404 -> Api.getSeoAnalysis fetch businessId = Returned JNull) /\
     (200 <= Api.status r <= 299 ->
      Api.getSeoAnalysis fetch businessId = Api.json_body r) /\
     (~ 200 <= Api.status r <= 299 -> Api.status r <> 404 ->
      exists message, Api.getSeoAnalysis fetch businessId = Thrown message)) /\
  (forall r,
     fetch (Api.mkRequest Api.GET (Api.seo_issues_url businessId)) = Returned r ->
     (Api.status r = 404 -> Api.getSeoIssues fetch businessId = Returned JNull) /\
     (200 <= Api.status r <= 299 ->
      Api.getSeoIssues fetch businessId = Api.json_body r) /\
     (~ 200 <= Api.status r <= 299 -> Api.status r <> 404 ->
      exists message, Api.getSeoIssues fetch businessId = Thrown message)).
Proof.
  unfold Api.getCompanyResearch, Api.getSeoAnalysis, Api.getSeoIssues.
  split; [ | split ]; lookup_cases.
Qed.

Lemma lookups_by_id_witness :
  Api.getCompanyResearch sample_server (of_Z 3)
  = Returned (JObj [("business_name", JStr "Bean House")]) /\
  Api.getSeoAnalysis sample_server (of_Z 3) = Returned JNull /\
  exists message, Api.getSeoIssues sample_server (of_Z 3) = Thrown message.
Proof.
  pose proof (lookups_by_id sample_server (of_Z 3)) as (Hres & Hseo & Hiss).
  split; [ | split ].
  - destruct (Hres _ eq_refl) as (_ & Hok & _).
    rewrite Hok; [ reflexivity | vm_compute; split; discriminate ].
  - destruct (Hseo _ eq_refl) as (H404 & _ & _).
    apply H404. reflexivity.
  - destruct (Hiss _ eq_refl) as (_ & _ & Hother).
    apply Hother.
    + vm_compute. intros [_ H]. apply H. reflexivity.
    + vm_compute. discriminate.
Defined.

(* ================================================================== *)
(** * Further properties of the program *)
(* ================================================================== *)

(** ** The order of numbers *)

(** [>=] is transitive: the comparison of [SpecFloat] orders the finite
    numbers by exponent and then by mantissa. *)
Lemma geb_trans (x y z : number) :
  geb x y = true -> geb y z = true -> geb x z = true.
Proof.
  unfold geb, SFleb, SFcompare.
  destruct x as [sx | sx | | sx mx ex], y as [sy | sy | | sy my ey],
    z as [sz | sz | | sz mz ez];
    try destruct sx; try destruct sy; try destruct sz;
    try (intros; (reflexivity || discriminate)).
  all: change (Pos.compare_cont Eq) with Pos.compare.
  all: destruct (Z.compare_spec ey ex), (Z.compare_spec ez ey),
         (Z.compare_spec ez ex);
    try (intros; (reflexivity || discriminate || lia)).
  all: subst;
    destruct (Pos.compare_spec my mx), (Pos.compare_spec mz my),
      (Pos.compare_spec mz mx);
    simpl; intros; try reflexivity; try discriminate; lia.
Qed.

(** ** More on the filtered view *)

Lemma filter_Subsequence {A : Type} (f : A -> bool) (l : list A) :
  Subsequence (filter f l) l.
Proof.
  induction l as [| a l IH]; simpl; [ constructor | ].
  destruct (f a); constructor; exact IH.
Qed.

Lemma filter_length_split {A : Type} (f : A -> bool) (l : list A) :
  (List.length (filter f l) + List.length (filter (fun a => negb (f a)) l)
   = List.length l)%nat.
Proof.
  induction l as [| a l IH]; simpl; [ reflexivity | ].
  destruct (f a); simpl; lia.
Qed.

(** X1: the filtered view is the stored list with some businesses left
    out: no business is added, repeated or moved. *)
Theorem filtered_view_subsequence (st : State) :
  Subsequence (getFilteredBusinesses st) (currentBusinesses st).
Proof. rewrite getFilteredBusinesses_filter. apply filter_Subsequence. Qed.

(** X2: filtering is idempotent: the same selection applied to its own
    result leaves it as it is. *)
Theorem filtering_idempotent (st : State) :
  getFilteredBusinesses (with_businesses (getFilteredBusinesses st) st)
  = getFilteredBusinesses st.
Proof.
  set (shown := getFilteredBusinesses st).
  rewrite (getFilteredBusinesses_filter (with_businesses shown st)).
  change (currentBusinesses (with_businesses shown st)) with shown.
  rewrite (filter_ext _ (fun b => website_keeps st b && rating_keeps st b))
    by reflexivity.
  subst shown. rewrite getFilteredBusinesses_filter, filter_filter.
  apply filter_ext. intros b.
  destruct (website_keeps st b), (rating_keeps st b); reflexivity.
Qed.

(** X3: under one rating selection, the businesses shown with the website
    control at true and those shown with it at false split the ones shown
    with the control at any other value: each of these is in exactly one
    of the two views, and the two counts add up. *)
Theorem website_views_split (st : State) (w r : string) :
  String.eqb w "true" = false -> String.eqb w "false" = false ->
  (forall b, In b (view w r st) <-> In b (view "true" r st) \/ In b (view "false" r st)) /\
  (forall b, In b (view "true" r st) -> In b (view "false" r st) -> False) /\
  (List.length (view "true" r st) + List.length (view "false" r st)
   = List.length (view w r st))%nat.
Proof.
  intros Ht Hf. unfold view.
  assert (Hw : forall b, website_keeps (set_filters w r st) b = true).
  { intros b. unfold website_keeps. simpl. rewrite Ht, Hf. reflexivity. }
  assert (Hrk : forall w' b,
             rating_keeps (set_filters w' r st) b = rating_keeps (set_filters w r st) b)
    by reflexivity.
  split; [ | split ].
  - intros b. rewrite !getFilteredBusinesses_In, Hw, (Hrk "true"), (Hrk "false").
    unfold website_keeps. simpl.
    destruct (str_truthy (website b)); simpl; intuition congruence.
  - intros b. rewrite !getFilteredBusinesses_In.
    unfold website_keeps. simpl.
    destruct (str_truthy (website b)); simpl; intuition congruence.
  - rewrite !getFilteredBusinesses_filter.
    rewrite <- (filter_length_split (fun b => str_truthy (website b))
                  (filter (fun b => website_keeps (set_filters w r st) b
                                    && rating_keeps (set_filters w r st) b)
                          (currentBusinesses (set_filters w r st)))).
    rewrite !filter_filter. simpl currentBusinesses.
    f_equal; f_equal; apply filter_ext; intros b;
      rewrite Hw; unfold website_keeps; simpl;
      rewrite ?(Hrk "true"), ?(Hrk "false");
      destruct (str_truthy (website b)), (rating_keeps (set_filters w r st) b);
      reflexivity.
Qed.

Lemma website_views_split_witness :
  (forall b, In b (view "" "3" (sample_state five 0 "" "")) <->
             In b (view "true" "3" (sample_state five 0 "" "")) \/
             In b (view "false" "3" (sample_state five 0 "" ""))) /\
  (forall b, In b (view "true" "3" (sample_state five 0 "" "")) ->
             In b (view "false" "3" (sample_state five 0 "" "")) -> False) /\
  (List.length (view "true" "3" (sample_state five 0 "" "")) +
   List.length (view "false" "3" (sample_state five 0 "" ""))
   = List.length (view "" "3" (sample_state five 0 "" "")))%nat.
Proof.
  apply (website_views_split (sample_state five 0 "" "") "" "3"); reflexivity.
Defined.

(** X4: raising the rating threshold never brings a business in: with
    two thresholds that parse to non-zero numbers, the second at least the
    first, every business shown under the second is shown under the first. *)
Theorem higher_threshold_shows_less (st : State) (w r1 r2 : string) (b : Business) :
  truthy (parseFloat r1) = true ->
  truthy (parseFloat r2) = true ->
  geb (parseFloat r2) (parseFloat r1) = true ->
  In b (view w r2 st) -> In b (view w r1 st).
Proof.
  intros H1 H2 Hge. unfold view. rewrite !getFilteredBusinesses_In.
  intros (Hin & Hw & Hr). repeat split; [ exact Hin | exact Hw | ].
  revert Hr. unfold rating_keeps, minRating. simpl.
  rewrite (truthy_threshold_set r1 H1), (truthy_threshold_set r2 H2), H1, H2.
  destruct (rating b) as [x |]; [ | discriminate ].
  intros Hx. apply andb_true_iff in Hx. destruct Hx as [Ht Hx].
  rewrite Ht. simpl. apply (geb_trans x (parseFloat r2) (parseFloat r1) Hx Hge).
Qed.

Lemma higher_threshold_shows_less_witness :
  In well_rated (view "" "3" (sample_state five 0 "" "")).
Proof.
  apply (higher_threshold_shows_less (sample_state five 0 "" "") "" "3" "4.5" well_rated).
  - vm_compute. reflexivity.
  - vm_compute. reflexivity.
  - vm_compute. reflexivity.
  - vm_compute. left. reflexivity.
Defined.

(** ** More on pages *)

(** X5: whatever the page index, negative or past the end, the page is
    one run of consecutive items of the list, at most ten of them. *)
Theorem page_is_a_short_run (bs : list Business) (p : Z) :
  (List.length (pageData bs p) <= 10)%nat /\
  exists before after, bs = (before ++ pageData bs p ++ after)%list.
Proof.
  unfold pageData, slice, PAGE_SIZE.
  set (len := Z.of_nat (List.length bs)).
  set (k := if p * 10 <? 0 then Z.max (len + p * 10) 0 else Z.min (p * 10) len).
  set (final := if p * 10 + 10 <? 0 then Z.max (len + (p * 10 + 10)) 0
                else Z.min (p * 10 + 10) len).
  split.
  - rewrite length_firstn.
    assert (final - k <= 10).
    { subst k final.
      destruct (Z.ltb_spec (p * 10) 0), (Z.ltb_spec (p * 10 + 10) 0); lia. }
    lia.
  - exists (firstn (Z.to_nat k) bs).
    exists (skipn (Z.to_nat (final - k)) (skipn (Z.to_nat k) bs)).
    rewrite firstn_skipn, firstn_skipn. reflexivity.
Qed.

(** X6: the pagination bar is there exactly when the list has more than
    ten items.  When it is there it shows the page number counted from 1
    and the size of the list; its previous button is disabled exactly on
    page 0 and its next button exactly when no item lies past the page. *)
Theorem pagination_bar (bs : list Business) (st : State) :
  (paginationControls (renderPage bs st) = None <-> (List.length bs <= 10)%nat) /\
  (forall pc,
     paginationControls (renderPage bs st) = Some pc ->
     pg_page pc = currentPage st + 1 /\
     pg_totalItems pc = Z.of_nat (List.length bs) /\
     pg_totalPages pc = totalPages bs /\
     (pg_prevDisabled pc = true <-> currentPage st = 0) /\
     (pg_nextDisabled pc = true <->
      Z.of_nat (List.length bs) <= 10 * (currentPage st + 1))).
Proof.
  pose proof (totalPages_bounds bs) as [Hlo Hhi].
  unfold renderPage, renderPaginationControls, renderTable.
  destruct (Z.leb_spec (totalPages bs) 1) as [Hle | Hgt];
    cbn [paginationControls set_paginationControls currentPage set_resultsBody].
  - split; [ split; [ lia | reflexivity ] | ].
    intros pc Hpc. discriminate.
  - split; [ split; [ discriminate | lia ] | ].
    intros pc Hpc. injection Hpc as <-.
    cbn [pg_page pg_totalItems pg_totalPages pg_prevDisabled pg_nextDisabled].
    rewrite Z.eqb_eq, Z.leb_le. repeat split; try tauto; lia.
Qed.

(** Rendering again from a rendered state is rendering from the state
    before: nothing of the table or the bar is read back. *)
Lemma applyFilters_again (p : Z) (st : State) :
  applyFilters (set_currentPage p (applyFilters st))
  = applyFilters (set_currentPage p st).
Proof.
  unfold applyFilters, renderPage, renderPaginationControls, renderTable.
  destruct (totalPages (getFilteredBusinesses st) <=? 1); reflexivity.
Qed.

Lemma set_currentPage_same (st : State) : set_currentPage (currentPage st) st = st.
Proof. destruct st. reflexivity. Qed.

(** X7: a step forward and a step back is a plain redraw: away from the
    last page, the next button and then the previous button leave the
    state that rendering the filtered view of the starting state gives. *)
Theorem next_then_prev (total : Z) (st : State) :
  0 <= currentPage st < total - 1 ->
  prevBtn_click (nextBtn_click total st) = applyFilters st.
Proof.
  intros [Hlo Hhi]. unfold nextBtn_click.
  replace (currentPage st <? total - 1) with true by (symmetry; apply Z.ltb_lt; lia).
  unfold prevBtn_click.
  frame_of (applyFilters_frame (set_currentPage (currentPage st + 1) st)).
  rewrite Hpage. simpl currentPage.
  replace (0 <? currentPage st + 1) with true by (symmetry; apply Z.ltb_lt; lia).
  rewrite applyFilters_again, Z.add_simpl_r.
  change (set_currentPage (currentPage st) (set_currentPage (currentPage st + 1) st))
    with (set_currentPage (currentPage st) st).
  rewrite set_currentPage_same. reflexivity.
Qed.

Lemma next_then_prev_witness :
  prevBtn_click (nextBtn_click 3 (sample_state twenty_five 1 "" ""))
  = applyFilters (sample_state twenty_five 1 "" "").
Proof.
  apply (next_then_prev 3 (sample_state twenty_five 1 "" "")).
  split; [ vm_compute; discriminate | reflexivity ].
Defined.

(** X8: the page index never goes below 0: from a state where it is not
    negative, no sequence of searches, filter changes and clicks makes it
    so. *)
Theorem page_index_never_negative (es : list Event) (st : State) :
  0 <= currentPage st -> 0 <= currentPage (run st es).
Proof.
  revert st. induction es as [| e es IH]; intros st Hpage; [ exact Hpage | ].
  unfold run. simpl. apply IH. apply step_page_nonneg. exact Hpage.
Qed.

Lemma page_index_never_negative_witness :
  0 <= currentPage
         (run (applyFilters (sample_state twenty_five 0 "" ""))
              [ClickPrev; ClickNext; ClickNext; ClickNext; ClickPrev;
               ChangeRatingFilter "3"; ClickPrev;
               Search "cafe" "Oslo" (Thrown "down"); ClickPrev]).
Proof.
  apply (page_index_never_negative
           [ClickPrev; ClickNext; ClickNext; ClickNext; ClickPrev;
            ChangeRatingFilter "3"; ClickPrev;
            Search "cafe" "Oslo" (Thrown "down"); ClickPrev]
           (applyFilters (sample_state twenty_five 0 "" ""))).
  vm_compute. discriminate.
Defined.

(** ** Searches and the export *)

(** The export reads the stored list and the two filter controls. *)
Lemma exportCSV_ext (now : string) (st st' : State) :
  currentBusinesses st' = currentBusinesses st ->
  websiteFilter st' = websiteFilter st ->
  ratingFilter st' = ratingFilter st ->
  exportCSV now st' = exportCSV now st.
Proof.
  intros Hb Hw Hr. unfold exportCSV.
  rewrite (getFilteredBusinesses_ext st st' Hb Hw Hr), Hb. reflexivity.
Qed.

Lemma step_click_frame (st : State) (e : Event) :
  is_click e ->
  currentBusinesses (step st e) = currentBusinesses st /\
  websiteFilter (step st e) = websiteFilter st /\
  ratingFilter (step st e) = ratingFilter st.
Proof.
  destruct e as [q l reply | v | v | |]; simpl; intros Hc; try contradiction.
  - destruct (paginationControls st) as [pc |]; [ | repeat split ].
    destruct (pg_prevDisabled pc); [ repeat split | ].
    unfold prevBtn_click. destruct (0 <? currentPage st); [ | repeat split ].
    frame_of (applyFilters_frame (set_currentPage (currentPage st - 1) st)).
    repeat split; assumption.
  - destruct (paginationControls st) as [pc |]; [ | repeat split ].
    destruct (pg_nextDisabled pc); [ repeat split | ].
    unfold nextBtn_click.
    destruct (currentPage st <? pg_totalPages pc - 1); [ | repeat split ].
    frame_of (applyFilters_frame (set_currentPage (currentPage st + 1) st)).
    repeat split; assumption.
Qed.

(** X9: the export takes every page, and turning pages does not change
    it: after any clicks on the pagination buttons the file is the one
    that would have been produced before them, and its lines are those of
    the pages of the filtered view put end to end. *)
Theorem export_takes_every_page (now : string) (st : State) (es : list Event) :
  Forall is_click es ->
  currentBusinesses st <> [] ->
  exportCSV now (run st es) = exportCSV now st /\
  option_map content (exportCSV now st)
  = Some (String.concat newline
            (header_line ::
             map row_line (List.concat (allPages (getFilteredBusinesses st))))).
Proof.
  intros Hes Hne. split.
  - clear Hne. revert st. induction Hes as [| e es He Hes IH]; intros st;
      [ reflexivity | ].
    unfold run in *. simpl. rewrite IH.
    destruct (step_click_frame st e He) as (Hb & Hw & Hr).
    apply exportCSV_ext; assumption.
  - rewrite (exportCSV_some now st Hne), allPages_concat. reflexivity.
Qed.

Lemma export_takes_every_page_witness :
  exportCSV "2026-11-02T09:30:00.000Z"
    (run (applyFilters (sample_state twenty_five 0 "" ""))
         [ClickNext; ClickNext; ClickPrev])
  = exportCSV "2026-11-02T09:30:00.000Z"
      (applyFilters (sample_state twenty_five 0 "" "")) /\
  option_map content
    (exportCSV "2026-11-02T09:30:00.000Z"
       (applyFilters (sample_state twenty_five 0 "" "")))
  = Some (String.concat newline
            (header_line ::
             map row_line
               (List.concat
                  (allPages
                     (getFilteredBusinesses
                        (applyFilters (sample_state twenty_five 0 "" ""))))))).
Proof.
  apply (export_takes_every_page "2026-11-02T09:30:00.000Z"
           (applyFilters (sample_state twenty_five 0 "" ""))
           [ClickNext; ClickNext; ClickPrev]).
  - repeat constructor.
  - discriminate.
Defined.

Lemma before_T_split (date time : string) :
  lacks "T" date = true -> before_T (date ++ String "T" time) = date.
Proof.
  induction date as [| c date IH]; simpl; intros Hd; [ reflexivity | ].
  apply andb_true_iff in Hd. destruct Hd as [Hc Hd].
  apply negb_true_iff in Hc. rewrite Hc, (IH Hd). reflexivity.
Qed.

(** X10: the file is named after the date: when the time stamp is a date
    without the letter T, then a T, then the time of day, the name is
    leads_, the date, and .csv. *)
Theorem export_filename (date time : string) (st : State) :
  lacks "T" date = true ->
  currentBusinesses st <> [] ->
  option_map filename (exportCSV (date ++ String "T" time) st)
  = Some ("leads_" ++ date ++ ".csv")%string.
Proof.
  intros Hd Hne. rewrite (exportCSV_some _ st Hne). simpl.
  rewrite (before_T_split date time Hd). reflexivity.
Qed.

Lemma export_filename_witness :
  option_map filename
    (exportCSV ("2026-11-02" ++ String "T" "09:30:00.000Z")
       (sample_state five 0 "" ""))
  = Some ("leads_" ++ "2026-11-02" ++ ".csv")%string.
Proof.
  apply (export_filename "2026-11-02" "09:30:00.000Z" (sample_state five 0 "" "")).
  - reflexivity.
  - discriminate.
Defined.

(** X11: a search that fails keeps everything of the search before: the
    identifier, the list, the page index, the filters, the table, the bar
    and the statistics are untouched, so the export still gives the old
    list; the error panel carries the title Search Failed and the message
    of the failure, and the four other panels are hidden. *)
Theorem failed_search_keeps_result (q l message now : string) (st : State) :
  blank q = false -> blank l = false ->
  let st' := handleSearch q l (Thrown message) st in
  (currentSearchId st' = currentSearchId st /\
   currentBusinesses st' = currentBusinesses st /\
   currentPage st' = currentPage st /\
   websiteFilter st' = websiteFilter st /\
   ratingFilter st' = ratingFilter st /\
   resultsBody st' = resultsBody st /\
   paginationControls st' = paginationControls st /\
   statistics st' = statistics st) /\
  exportCSV now st' = exportCSV now st /\
  errorState st' = Some ("Search Failed", message) /\
  (emptyState st' = false /\ statsBar st' = false /\
   filtersSection st' = false /\ resultsSection st' = false).
Proof.
  intros Hq Hl. cbv zeta. unfold handleSearch. rewrite Hq, Hl. simpl.
  repeat split.
Qed.

Lemma failed_search_keeps_result_witness :
  let st' := handleSearch "cafe" "Oslo" (Thrown "API limit reached")
               (sample_state five 0 "true" "") in
  (currentSearchId st' = currentSearchId (sample_state five 0 "true" "") /\
   currentBusinesses st' = currentBusinesses (sample_state five 0 "true" "") /\
   currentPage st' = currentPage (sample_state five 0 "true" "") /\
   websiteFilter st' = websiteFilter (sample_state five 0 "true" "") /\
   ratingFilter st' = ratingFilter (sample_state five 0 "true" "") /\
   resultsBody st' = resultsBody (sample_state five 0 "true" "") /\
   paginationControls st' = paginationControls (sample_state five 0 "true" "") /\
   statistics st' = statistics (sample_state five 0 "true" "")) /\
  exportCSV "2026-11-02T09:30:00.000Z" st'
  = exportCSV "2026-11-02T09:30:00.000Z" (sample_state five 0 "true" "") /\
  errorState st' = Some ("Search Failed", "API limit reached") /\
  (emptyState st' = false /\ statsBar st' = false /\
   filtersSection st' = false /\ resultsSection st' = false).
Proof.
  apply (failed_search_keeps_result "cafe" "Oslo" "API limit reached"
           "2026-11-02T09:30:00.000Z" (sample_state five 0 "true" ""));
    reflexivity.
Defined.

(** X12: a search that finds nothing empties the stored list and shows
    the empty panel alone; the statistics read 0, 0 and 0, the export does
    nothing, and the table body and the pagination bar are left as the
    search before drew them. *)
Theorem search_finding_nothing (q l now : string) (sid : json) (st : State) :
  blank q = false -> blank l = false ->
  let st' := handleSearch q l (Returned (mkSearchResult sid [])) st in
  currentBusinesses st' = [] /\
  currentSearchId st' = sid /\
  (emptyState st' = true /\ statsBar st' = false /\
   filtersSection st' = false /\ resultsSection st' = false /\
   errorState st' = None) /\
  statistics st' = Some (0, 0, 0) /\
  exportCSV now st' = None /\
  resultsBody st' = resultsBody st /\
  paginationControls st' = paginationControls st.
Proof.
  intros Hq Hl. cbv zeta. unfold handleSearch. rewrite Hq, Hl. simpl.
  repeat split.
Qed.

Lemma search_finding_nothing_witness :
  let st' := handleSearch "cafe" "Oslo" (Returned (mkSearchResult (JNum (of_Z 9)) []))
               (applyFilters (sample_state twenty_five 1 "" "")) in
  currentBusinesses st' = [] /\
  currentSearchId st' = JNum (of_Z 9) /\
  (emptyState st' = true /\ statsBar st' = false /\
   filtersSection st' = false /\ resultsSection st' = false /\
   errorState st' = None) /\
  statistics st' = Some (0, 0, 0) /\
  exportCSV "2026-11-02T09:30:00.000Z" st' = None /\
  resultsBody st' = resultsBody (applyFilters (sample_state twenty_five 1 "" "")) /\
  paginationControls st'
  = paginationControls (applyFilters (sample_state twenty_five 1 "" "")).
Proof.
  apply (search_finding_nothing "cafe" "Oslo" "2026-11-02T09:30:00.000Z"
           (JNum (of_Z 9)) (applyFilters (sample_state twenty_five 1 "" "")));
    reflexivity.
Defined.

(** X13: after a search that found something, the two website counts of
    the statistics are the sizes of the two website views: what the
    website control at true, resp. at false, shows with no rating
    threshold; and the export then always produces a file. *)
Theorem stats_match_website_views
    (q l now : string) (result : SearchResult) (st : State) :
  blank q = false -> blank l = false -> businesses result <> [] ->
  let st' := handleSearch q l (Returned result) st in
  statistics st'
  = Some (Z.of_nat (List.length (businesses result)),
          Z.of_nat (List.length (view "true" "" st')),
          Z.of_nat (List.length (view "false" "" st'))) /\
  exportCSV now st' <> None /\
  (emptyState st' = false /\ statsBar st' = true /\
   filtersSection st' = true /\ resultsSection st' = true).
Proof.
  intros Hq Hl Hne. cbv zeta.
  rewrite (handleSearch_success q l result st Hq Hl).
  set (st0 := set_search (search_id result) (businesses result) (hideError st)).
  assert (Hbs : currentBusinesses
                  (updateStats (businesses result)
                     (showResults (businesses result) st0)) = businesses result).
  { frame_of (showResults_frame (businesses result) st0). simpl. assumption. }
  split; [ | split ].
  - unfold view. rewrite !getFilteredBusinesses_filter.
    cbn [currentBusinesses set_filters]. rewrite Hbs.
    cbn [statistics updateStats set_statistics]. do 2 f_equal.
    + f_equal. f_equal. f_equal. apply filter_ext. intros b.
      unfold website_keeps, rating_keeps, minRating. simpl.
      rewrite andb_true_r. reflexivity.
    + pose proof (filter_length_split (fun b => str_truthy (website b))
                    (businesses result)) as Hsplit.
      rewrite (filter_ext (fun b => website_keeps _ b && rating_keeps _ b)
                 (fun b => negb (str_truthy (website b)))).
      * lia.
      * intros b. unfold website_keeps, rating_keeps, minRating. simpl.
        rewrite andb_true_r. reflexivity.
  - intros Hnone. apply exportCSV_none in Hnone. rewrite Hbs in Hnone.
    contradiction.
  - simpl. unfold showResults.
    destruct (Z.of_nat (List.length (businesses result)) =? 0) eqn:Hlen.
    + apply length_zero_nil in Hlen. contradiction.
    + unfold renderPage, renderPaginationControls, renderTable.
      destruct (totalPages (businesses result) <=? 1); repeat split.
Qed.

(** ** Badges *)

(** X14: the badge of a lead score follows the score: a score at least as
    high as a hot one is hot, a score at least as high as one that is not
    cold is not cold; an absent score and NaN are cold. *)
Theorem lead_score_class_rises (x y : number) :
  geb y x = true ->
  (getLeadScoreClass (Some x) = "score-hot" ->
   getLeadScoreClass (Some y) = "score-hot") /\
  (getLeadScoreClass (Some x) <> "score-cold" ->
   getLeadScoreClass (Some y) <> "score-cold") /\
  getLeadScoreClass None = "score-cold" /\
  getLeadScoreClass (Some NaN) = "score-cold".
Proof.
  intros Hyx. unfold getLeadScoreClass.
  split; [ | split; [ | split; reflexivity ] ].
  - destruct (geb x (of_Z 65)) eqn:Hx.
    + rewrite (geb_trans y x (of_Z 65) Hyx Hx). reflexivity.
    + destruct (geb x (of_Z 35)); discriminate.
  - destruct (geb x (of_Z 65)) eqn:Hx.
    + rewrite (geb_trans y x (of_Z 65) Hyx Hx). discriminate.
    + destruct (geb x (of_Z 35)) eqn:Hx'.
      * rewrite (geb_trans y x (of_Z 35) Hyx Hx').
        destruct (geb y (of_Z 65)); discriminate.
      * intros H. exfalso. apply H. reflexivity.
Qed.

Lemma lead_score_class_rises_witness :
  (getLeadScoreClass (Some (of_Z 65)) = "score-hot" ->
   getLeadScoreClass (Some (parseFloat "87.5")) = "score-hot") /\
  (getLeadScoreClass (Some (of_Z 65)) <> "score-cold" ->
   getLeadScoreClass (Some (parseFloat "87.5")) <> "score-cold") /\
  getLeadScoreClass None = "score-cold" /\
  getLeadScoreClass (Some NaN) = "score-cold".
Proof.
  apply (lead_score_class_rises (of_Z 65) (parseFloat "87.5")).
  vm_compute. reflexivity.
Defined.

(** X15: the colour of an SEO score follows the score in the same way:
    at least as high as a good one is good, at least as high as one that
    is not bad is not bad; NaN is bad. *)
Theorem score_colour_rises (x y : number) :
  geb y x = true ->
  (getScoreColorClass x = "score-good" -> getScoreColorClass y = "score-good") /\
  (getScoreColorClass x <> "score-bad" -> getScoreColorClass y <> "score-bad") /\
  getScoreColorClass NaN = "score-bad".
Proof.
  intros Hyx. unfold getScoreColorClass.
  split; [ | split; [ | reflexivity ] ].
  - destruct (geb x (of_Z 80)) eqn:Hx.
    + rewrite (geb_trans y x (of_Z 80) Hyx Hx). reflexivity.
    + destruct (geb x (of_Z 50)); discriminate.
  - destruct (geb x (of_Z 80)) eqn:Hx.
    + rewrite (geb_trans y x (of_Z 80) Hyx Hx). discriminate.
    + destruct (geb x (of_Z 50)) eqn:Hx'.
      * rewrite (geb_trans y x (of_Z 50) Hyx Hx').
        destruct (geb y (of_Z 80)); discriminate.
      * intros H. exfalso. apply H. reflexivity.
Qed.

Lemma score_colour_rises_witness :
  (getScoreColorClass (of_Z 50) = "score-good" ->
   getScoreColorClass (parseFloat "79.9") = "score-good") /\
  (getScoreColorClass (of_Z 50) <> "score-bad" ->
   getScoreColorClass (parseFloat "79.9") <> "score-bad") /\
  getScoreColorClass NaN = "score-bad".
Proof.
  apply (score_colour_rises (of_Z 50) (parseFloat "79.9")).
  vm_compute. reflexivity.
Defined.

(** A grade is matched by its first letter for A only: every grade
    that begins with A is grade-a, while B and C count only when they are
    the whole grade, so that B or C followed by anything is grade-d. *)
Lemma grade_class_by_letter (c : ascii) (rest : string) :
  getGradeClass (String "A" rest) = "grade-a" /\
  getGradeClass "B" = "grade-b" /\
  getGradeClass "C" = "grade-c" /\
  getGradeClass (String "B" (String c rest)) = "grade-d" /\
  getGradeClass (String "C" (String c rest)) = "grade-d" /\
  getGradeClass "" = "grade-d".
Proof.
  unfold getGradeClass.
  split; [ simpl; destruct rest; reflexivity | ].
  split; [ reflexivity | ]. split; [ reflexivity | ].
  split; [ | split ]; reflexivity.
Qed.

(** ** Escaping text for markup *)

Lemma lacks_append (c : ascii) (s t : string) :
  lacks c (s ++ t) = lacks c s && lacks c t.
Proof.
  induction s as [| c' s IH]; simpl; [ reflexivity | ].
  rewrite IH. apply andb_assoc.
Qed.

(** X16: what [escapeHtml] returns holds neither of the two angle
    brackets, and it can be read back: replacing the four entities by
    their code units gives the text that was escaped. *)
Theorem escapeHtml_safe_and_lossless (s : string) :
  lacks "<" (escapeHtml (Some s)) = true /\
  lacks ">" (escapeHtml (Some s)) = true /\
  unescape_text (escapeHtml (Some s)) = s.
Proof.
  unfold escapeHtml. destruct s as [| c0 s0]; [ repeat split | ].
  cbn [str_truthy nonempty str_or_empty].
  generalize (String c0 s0). clear c0 s0. intros s.
  induction s as [| c s (IHlt & IHgt & IHback)]; [ repeat split | ].
  cbn [escape_text].
  destruct (Ascii.eqb c "&") eqn:Hamp;
    [ apply Ascii.eqb_eq in Hamp; subst c; cbn; rewrite IHlt, IHgt, IHback;
      repeat split | ].
  destruct (Ascii.eqb c nbsp) eqn:Hnb;
    [ apply Ascii.eqb_eq in Hnb; subst c; cbn; rewrite IHlt, IHgt, IHback;
      repeat split | ].
  destruct (Ascii.eqb c "<") eqn:Hlt;
    [ apply Ascii.eqb_eq in Hlt; subst c; cbn; rewrite IHlt, IHgt, IHback;
      repeat split | ].
  destruct (Ascii.eqb c ">") eqn:Hgt;
    [ apply Ascii.eqb_eq in Hgt; subst c; cbn; rewrite IHlt, IHgt, IHback;
      repeat split | ].
  cbn [lacks]. rewrite Hlt, Hgt, IHlt, IHgt.
  repeat split.
  cbn [unescape_text].
  destruct c as [[] [] [] [] [] [] [] []]; try discriminate;
    rewrite IHback; reflexivity.
Qed.

(** X17: [escapeHtml] touches nothing but the ampersand, the no-break
    space and the two angle brackets: a text without them comes back as it
    is, its double quotes and apostrophes included; an absent or empty
    text gives the empty text. *)
Theorem escapeHtml_keeps_other_units (s : string) :
  lacks "&" s = true -> lacks nbsp s = true ->
  lacks "<" s = true -> lacks ">" s = true ->
  escapeHtml (Some s) = s /\ escapeHtml None = "" /\ escapeHtml (Some "") = "".
Proof.
  intros Hamp Hnb Hlt Hgt. split; [ | split; reflexivity ].
  unfold escapeHtml. destruct s as [| c0 s0]; [ reflexivity | ].
  cbn [str_truthy nonempty str_or_empty].
  revert Hamp Hnb Hlt Hgt. generalize (String c0 s0). clear c0 s0. intros s.
  induction s as [| c s IH]; [ reflexivity | ].
  cbn [lacks escape_text]. rewrite !andb_true_iff, !negb_true_iff.
  intros [Ha Hamp] [Hn Hnb] [Hl Hlt] [Hg Hgt].
  rewrite Ha, Hn, Hl, Hg, (IH Hamp Hnb Hlt Hgt). reflexivity.
Qed.

Lemma escapeHtml_keeps_other_units_witness :
  escapeHtml (Some he_said_hi) = he_said_hi /\
  escapeHtml None = "" /\ escapeHtml (Some "") = "".
Proof.
  apply (escapeHtml_keeps_other_units he_said_hi); reflexivity.
Defined.

(** ** The other calls of the client *)

Section Refusals.

Variable reading_null : string.
Variable converting_object : string.
Variable fallback : string.



End Refusals.






(** ** The query of getBusinesses *)

Lemma count_unit_append (c : ascii) (s t : string) :
  count_unit c (s ++ t) = (count_unit c s + count_unit c t)%nat.
Proof. induction s as [| c' s IH]; simpl; [ reflexivity | rewrite IH; lia ]. Qed.

(** Percent-encoding writes no ampersand and no equals sign. *)
Lemma urlencode_no_separator (s : string) :
  count_unit "&" (urlencode s) = O /\ count_unit "=" (urlencode s) = O.
Proof.
  induction s as [| c s [IHa IHe]]; [ split; reflexivity | ].
  cbn [urlencode].
  assert (Hunit : forall rest,
             count_unit "&" (urlencode_unit c rest) = count_unit "&" rest /\
             count_unit "=" (urlencode_unit c rest) = count_unit "=" rest).
  { intros rest. destruct c as [[] [] [] [] [] [] [] []]; split; reflexivity. }
  destruct (Hunit (urlencode s)) as [Ha He]. rewrite Ha, He. split; assumption.
Qed.

Lemma serialize_params_count (params : list (string * string)) :
  count_unit "=" (Api.serialize_params params) = List.length params /\
  count_unit "&" (Api.serialize_params params) = Nat.pred (List.length params).
Proof.
  unfold Api.serialize_params.
  induction params as [| [n v] params [IHe IHa]]; [ split; reflexivity | ].
  destruct (urlencode_no_separator n) as [Hna Hne].
  destruct (urlencode_no_separator v) as [Hva Hve].
  destruct params as [| p params].
  - cbn [map String.concat fst snd List.length Nat.pred].
    rewrite !count_unit_append, Hna, Hne, Hva, Hve. split; reflexivity.
  - cbn [map String.concat] in *. cbn [fst snd List.length Nat.pred] in *.
    rewrite !count_unit_append, Hna, Hne, Hva, Hve, IHe, IHa.
    split; reflexivity.
Qed.

Lemma append_if_truthy_length (name : string) (v : option json)
    (ps : list (string * string)) :
  Api.append_if_truthy name v = Some ps -> (List.length ps <= 1)%nat.
Proof.
  unfold Api.append_if_truthy.
  destruct v as [j |]; [ destruct (json_truthy j) | ];
    [ destruct (json_to_string j) | | ]; simpl; intros H;
    try discriminate; injection H as <-; simpl; lia.
Qed.

Lemma and_then_some (a b : option (list (string * string)))
    (ps : list (string * string)) :
  Api.and_then a b = Some ps ->
  exists xs ys, a = Some xs /\ b = Some ys /\ ps = (xs ++ ys)%list.
Proof.
  destruct a as [xs |], b as [ys |]; simpl; intros H; try discriminate.
  injection H as <-. exists xs, ys. repeat split.
Qed.

(** X20: whenever [getBusinesses] can build its query, the query is well
    formed whatever the values hold: it has one equals sign for each
    parameter sent and one ampersand between two neighbours, so no value
    can add a parameter, and at most five parameters are sent.  A minimum
    rating, a limit or an offset of 0 gives the same address, or the same
    failure to build one, as none at all, and [hasWebsite] set to false
    is sent. *)
Theorem businesses_query_shape (s h m l o : option json) (sg : bool) :
  (forall params,
     Api.businesses_params (Api.mkFilters s h m l o) = Some params ->
     count_unit "=" (Api.serialize_params params) = List.length params /\
     count_unit "&" (Api.serialize_params params) = Nat.pred (List.length params) /\
     (List.length params <= 5)%nat) /\
  Api.businesses_url (Api.mkFilters s h (Some (JNum (S754_zero sg))) l o)
  = Api.businesses_url (Api.mkFilters s h None l o) /\
  Api.businesses_url (Api.mkFilters s h m (Some (JNum (S754_zero sg))) o)
  = Api.businesses_url (Api.mkFilters s h m None o) /\
  Api.businesses_url (Api.mkFilters s h m l (Some (JNum (S754_zero sg))))
  = Api.businesses_url (Api.mkFilters s h m l None) /\
  (forall params,
     Api.businesses_params (Api.mkFilters s (Some (JBool false)) m l o) = Some params ->
     In ("has_website", "false") params).
Proof.
  split; [ | split; [ | split; [ | split ] ] ]; try reflexivity.
  - intros params Hparams.
    destruct (serialize_params_count params) as [He Ha].
    split; [ exact He | ]. split; [ exact Ha | ].
    unfold Api.businesses_params in Hparams.
    cbn [Api.searchId Api.hasWebsite Api.minRating Api.limit Api.offset] in Hparams.
    apply and_then_some in Hparams. destruct Hparams as (p1 & r1 & H1 & Hr1 & ->).
    apply and_then_some in Hr1. destruct Hr1 as (p2 & r2 & H2 & Hr2 & ->).
    apply and_then_some in Hr2. destruct Hr2 as (p3 & r3 & H3 & Hr3 & ->).
    apply and_then_some in Hr3. destruct Hr3 as (p4 & p5 & H4 & H5 & ->).
    apply append_if_truthy_length in H1, H3, H4, H5.
    assert (Hw : (List.length p2 <= 1)%nat).
    { destruct h as [j |]; [ | injection H2 as <-; simpl; lia ].
      destruct j as [| b | x | t | items | members];
        try (destruct (json_to_string _); simpl in H2;
             [ injection H2 as <-; simpl; lia | discriminate ]).
      destruct t; simpl in H2; injection H2 as <-; simpl; lia. }
    rewrite !length_app. lia.
  - intros params Hparams.
    unfold Api.businesses_params in Hparams.
    cbn [Api.searchId Api.hasWebsite Api.minRating Api.limit Api.offset] in Hparams.
    apply and_then_some in Hparams. destruct Hparams as (p1 & r1 & H1 & Hr1 & ->).
    apply and_then_some in Hr1. destruct Hr1 as (p2 & r2 & H2 & Hr2 & ->).
    simpl in H2. injection H2 as <-.
    apply in_or_app. right. apply in_or_app. left. left. reflexivity.
Qed.

(** ** The arguments of a search *)

Lemma trim_end_again (s : string) : trim_end (trim_end s) = trim_end s.
Proof.
  induction s as [| c s IH]; [ reflexivity | ].
  cbn [trim_end]. destruct (trim_end s) as [| c' t] eqn:Ht.
  - destruct (is_space c) eqn:Hc; [ reflexivity | ].
    cbn [trim_end]. rewrite Hc. reflexivity.
  - cbn [trim_end] in *. rewrite IH. reflexivity.
Qed.

(** After leading white space is skipped, what is left is empty or
    starts with a code unit that is no white space. *)
Lemma skip_spaces_head (s : string) :
  skip_spaces s = EmptyString \/
  exists c r, skip_spaces s = String c r /\ is_space c = false.
Proof.
  induction s as [| c s IH]; [ left; reflexivity | ].
  cbn [skip_spaces]. destruct (is_space c) eqn:Hc; [ exact IH | ].
  right. exists c, s. split; [ reflexivity | exact Hc ].
Qed.

Lemma trim_end_head (c : ascii) (r : string) :
  is_space c = false -> exists t, trim_end (String c r) = String c t.
Proof.
  intros Hc. cbn [trim_end]. destruct (trim_end r) as [| c' t].
  - rewrite Hc. exists EmptyString. reflexivity.
  - exists (String c' t). reflexivity.
Qed.

Lemma trim_again (s : string) : trim (trim s) = trim s.
Proof.
  unfold trim. destruct (skip_spaces_head s) as [He | (c & r & Hs & Hc)].
  - rewrite He. reflexivity.
  - rewrite Hs. destruct (trim_end_head c r Hc) as (t & Ht).
    rewrite Ht. cbn [skip_spaces]. rewrite Hc, <- Ht. apply trim_end_again.
Qed.

(** The guard of [handleSearch] on a trimmed text is the test for white
    space alone on the text. *)
Lemma blank_trim (s : string) : blank s = negb (nonempty (trim s)).
Proof.
  unfold blank, trim. destruct (skip_spaces_head s) as [He | (c & r & Hs & Hc)].
  - rewrite He. reflexivity.
  - rewrite Hs. destruct (trim_end_head c r Hc) as (t & Ht). rewrite Ht.
    reflexivity.
Qed.

(** X21: [handleSearch] calls the client exactly when neither the query
    nor the location is white space alone; the query and the location it
    passes are trimmed and not empty, and the radius and the maximum it
    passes are never 0 and never NaN: a field that is empty, is no number
    or reads 0 is sent as 10. *)
Theorem search_arguments_sound (businessType location radius maxResults : string) :
  (search_arguments businessType location radius maxResults = None <->
   blank businessType || blank location = true) /\
  (forall a,
     search_arguments businessType location radius maxResults = Some a ->
     arg_query a = trim businessType /\ nonempty (arg_query a) = true /\
     trim (arg_query a) = arg_query a /\
     arg_location a = trim location /\ nonempty (arg_location a) = true /\
     trim (arg_location a) = arg_location a /\
     truthy (arg_radius a) = true /\ truthy (arg_maxResults a) = true /\
     (truthy (parseInt radius) = false -> arg_radius a = of_Z 10) /\
     (truthy (parseInt maxResults) = false -> arg_maxResults a = of_Z 10)).
Proof.
  unfold search_arguments. rewrite !blank_trim.
  destruct (nonempty (trim businessType)) eqn:Hq;
    destruct (nonempty (trim location)) eqn:Hl; simpl;
    (split; [ split; intros H; (reflexivity || discriminate) | ]);
    intros a Ha; try discriminate.
  injection Ha as <-. cbn [arg_query arg_location arg_radius arg_maxResults].
  rewrite !trim_again.
  repeat split; try assumption.
  - destruct (truthy (parseInt radius)) eqn:Hr; [ exact Hr | reflexivity ].
  - destruct (truthy (parseInt maxResults)) eqn:Hm; [ exact Hm | reflexivity ].
  - intros Hr. rewrite Hr. reflexivity.
  - intros Hm. rewrite Hm. reflexivity.
Qed.

Lemma search_arguments_sound_witness :
  arg_query (mkSearchArguments "coffee shop" "Seattle" (of_Z 10) (of_Z 25))
  = trim "  coffee shop " /\
  truthy (arg_radius (mkSearchArguments "coffee shop" "Seattle" (of_Z 10) (of_Z 25)))
  = true /\
  arg_radius (mkSearchArguments "coffee shop" "Seattle" (of_Z 10) (of_Z 25)) = of_Z 10.
Proof.
  pose proof (search_arguments_sound "  coffee shop " "Seattle" "0" "25 places")
    as (_ & Hsome).
  destruct (Hsome (mkSearchArguments "coffee shop" "Seattle" (of_Z 10) (of_Z 25)))
    as (Hq & _ & _ & _ & _ & _ & Hr & _ & Hten & _).
  - vm_compute. reflexivity.
  - split; [ exact Hq | ]. split; [ exact Hr | ]. apply Hten. reflexivity.
Defined.

(** ** The statistics and the stored list *)

Lemma handleSearch_businesses (q l : string) (result : SearchResult) (st : State) :
  blank q = false -> blank l = false ->
  currentBusinesses (handleSearch q l (Returned result) st) = businesses result.
Proof.
  intros Hq Hl. rewrite (handleSearch_success q l result st Hq Hl).
  frame_of (showResults_frame (businesses result)
              (set_search (search_id result) (businesses result) (hideError st))).
  simpl. assumption.
Qed.

Lemma step_stats_current (st : State) (e : Event) :
  stats_current st -> stats_current (step st e).
Proof.
  unfold stats_current. intros Hcur.
  destruct e as [q l reply | v | v | |].
  - cbn [step].
    destruct (blank q) eqn:Hq;
      [ unfold handleSearch; rewrite Hq; exact Hcur | ].
    destruct (blank l) eqn:Hl;
      [ unfold handleSearch; rewrite Hq, Hl; exact Hcur | ].
    destruct reply as [result | message].
    + rewrite (handleSearch_statistics q l result st Hq Hl),
        (handleSearch_businesses q l result st Hq Hl). reflexivity.
    + unfold handleSearch. rewrite Hq, Hl. exact Hcur.
  - rewrite step_statistics by exact I. cbn [step]. unfold handleFilterChange.
    frame_of (applyFilters_frame (set_currentPage 0 (set_filters v (ratingFilter st) st))).
    rewrite Hbs. exact Hcur.
  - rewrite step_statistics by exact I. cbn [step]. unfold handleFilterChange.
    frame_of (applyFilters_frame (set_currentPage 0 (set_filters (websiteFilter st) v st))).
    rewrite Hbs. exact Hcur.
  - rewrite step_statistics by exact I.
    destruct (step_click_frame st ClickPrev I) as (Hb & _). rewrite Hb. exact Hcur.
  - rewrite step_statistics by exact I.
    destruct (step_click_frame st ClickNext I) as (Hb & _). rewrite Hb. exact Hcur.
Qed.

(** X22: from a successful search on, the statistics bar describes the
    stored list at every moment: whatever follows, filter changes, page
    clicks, further searches that succeed, fail or are not sent, the
    three counts are those of the list then stored. *)
Theorem stats_always_current
    (q l : string) (result : SearchResult) (st : State) (es : list Event) :
  blank q = false -> blank l = false ->
  stats_current (run (handleSearch q l (Returned result) st) es).
Proof.
  intros Hq Hl.
  assert (Hstart : stats_current (handleSearch q l (Returned result) st)).
  { unfold stats_current.
    rewrite (handleSearch_statistics q l result st Hq Hl),
      (handleSearch_businesses q l result st Hq Hl). reflexivity. }
  revert Hstart. generalize (handleSearch q l (Returned result) st).
  induction es as [| e es IH]; intros st0 Hcur; [ exact Hcur | ].
  unfold run in *. simpl. apply IH. apply step_stats_current. exact Hcur.
Qed.

Lemma stats_always_current_witness :
  stats_current
    (run (handleSearch "coffee shop" "Seattle" (Returned five_found)
            (sample_state [] 0 "" ""))
         [ChangeWebsiteFilter "true"; Search "bakery" "Oslo" (Thrown "down");
          Search "" "Oslo" (Returned five_found);
          Search "diner" "Oslo" (Returned (mkSearchResult JNull twenty_five));
          ClickNext]).
Proof.
  apply (stats_always_current "coffee shop" "Seattle" five_found
           (sample_state [] 0 "" "")
           [ChangeWebsiteFilter "true"; Search "bakery" "Oslo" (Thrown "down");
            Search "" "Oslo" (Returned five_found);
            Search "diner" "Oslo" (Returned (mkSearchResult JNull twenty_five));
            ClickNext]);
    reflexivity.
Defined.

Lemma stats_match_website_views_witness :
  let st' := handleSearch "coffee shop" "Seattle" (Returned five_found)
               (sample_state [] 0 "true" "4") in
  statistics st'
  = Some (Z.of_nat (List.length (businesses five_found)),
          Z.of_nat (List.length (view "true" "" st')),
          Z.of_nat (List.length (view "false" "" st'))) /\
  exportCSV "2026-11-02T09:30:00.000Z" st' <> None /\
  (emptyState st' = false /\ statsBar st' = true /\
   filtersSection st' = true /\ resultsSection st' = true).
Proof.
  apply (stats_match_website_views "coffee shop" "Seattle"
           "2026-11-02T09:30:00.000Z" five_found (sample_state [] 0 "true" "4")).
  - reflexivity.
  - reflexivity.
  - discriminate.
Defined.

(** ** Clicks and filter changes, composed *)

(** X23: on a bar drawn from the current filtered view, with a page
    index that is not negative, a click does what the listener of the
    button does: a disabled button is one whose listener would hand the
    state back; and when the view fits on one page there is no bar and a
    click changes nothing. *)
Theorem clicks_follow_listeners (st : State) :
  0 <= currentPage st ->
  let st' := applyFilters st in
  let total := totalPages (getFilteredBusinesses st) in
  (1 < total ->
   step st' ClickNext = nextBtn_click total st' /\
   step st' ClickPrev = prevBtn_click st') /\
  (total <= 1 -> step st' ClickNext = st' /\ step st' ClickPrev = st').
Proof.
  intros Hpage st' total. split.
  - intros Htotal. apply (clicks_reach_listeners st Htotal Hpage).
  - intros Htotal. subst st'. cbn [step]. rewrite applyFilters_controls.
    fold total. replace (total <=? 1) with true by (symmetry; apply Z.leb_le; lia).
    split; reflexivity.
Qed.

Lemma clicks_follow_listeners_witness :
  let st' := applyFilters (sample_state twenty_five 2 "" "") in
  let total := totalPages (getFilteredBusinesses (sample_state twenty_five 2 "" "")) in
  (1 < total ->
   step st' ClickNext = nextBtn_click total st' /\
   step st' ClickPrev = prevBtn_click st') /\
  (total <= 1 -> step st' ClickNext = st' /\ step st' ClickPrev = st').
Proof.
  apply (clicks_follow_listeners (sample_state twenty_five 2 "" "")).
  vm_compute. discriminate.
Defined.

(** X24: two filter changes in a row give the state that one change to
    the final selection gives, so the order in which the website control
    and the rating control are changed does not matter. *)
Theorem filter_changes_commute (st : State) (w r : string) :
  step (step st (ChangeWebsiteFilter w)) (ChangeRatingFilter r)
  = handleFilterChange (set_filters w r st) /\
  step (step st (ChangeRatingFilter r)) (ChangeWebsiteFilter w)
  = handleFilterChange (set_filters w r st).
Proof.
  cbn [step]. unfold handleFilterChange, applyFilters, renderPage,
    renderPaginationControls, renderTable.
  split.
  - destruct (totalPages
                (getFilteredBusinesses
                   (set_currentPage 0 (set_filters w (ratingFilter st) st))) <=? 1);
      reflexivity.
  - destruct (totalPages
                (getFilteredBusinesses
                   (set_currentPage 0 (set_filters (websiteFilter st) r st))) <=? 1);
      reflexivity.
Qed.
